(** * Job admission and dispatch (apps/api/src/services/queue-jobs.ts)

    A shallow embedding of the admission layer of the scraping backend:
    the single-job entry point [addScrapeJobRaw], the bulk entry point
    [addScrapeJobs], the two dispatch helpers and the wait primitive
    [waitForJob].

    The collaborators the file imports (the crawl store, the concurrency
    ledger, the tenant lookup, the notification service, the worker queue)
    are an interface, [Backend]: every operation of the source that awaits
    one of them becomes a step of a small monad that threads the store and
    records the call.  Theorems are proved for every backend; a concrete
    one, [Ledger.World], is used to run the code on explicit inputs. *)

From Stdlib Require Import ZArith List String Bool Lia Permutation Arith.
Import ListNotations.
Local Open Scope string_scope.
Local Open Scope list_scope.
Local Open Scope Z_scope.

Set Implicit Arguments.

(* ===================================================================== *)
(** ** JavaScript values as the source uses them *)
(* ===================================================================== *)

(** [x ?? d]: the left operand unless it is null or undefined. *)
Definition nullish {A : Type} (x : option A) (d : A) : A :=
  match x with Some v => v | None => d end.

(** Truthiness of a string: every string but the empty one. *)
Definition truthyString (s : string) : bool :=
  negb (String.eqb s EmptyString).

(** Truthiness of an optional string ([undefined] and the empty string are
    falsy); returns the string when truthy. *)
Definition truthyId (s : option string) : option string :=
  match s with
  | Some v => if truthyString v then Some v else None
  | None => None
  end.

(** Truthiness of an optional number: defined and not zero.  Numbers that
    the admission layer inspects are taken integral. *)
Definition truthyNumber (n : option Z) : bool :=
  match n with Some v => negb (v =? 0) | None => false end.

(** Truthiness of an optional boolean. *)
Definition truthyBool (b : option bool) : bool :=
  match b with Some v => v | None => false end.

Definition isSome {A : Type} (x : option A) : bool :=
  match x with Some _ => true | None => false end.

(** [Math.max(a - b, 0)] on integers. *)
Definition freeSlotsOf (limit used : Z) : Z := Z.max (limit - used) 0.

(** [xs.slice(0, n)] and [xs.slice(n)] for a non-negative integer [n]. *)
Definition sliceTo {A : Type} (n : Z) (xs : list A) : list A :=
  firstn (Z.to_nat n) xs.
Definition sliceFrom {A : Type} (n : Z) (xs : list A) : list A :=
  skipn (Z.to_nat n) xs.

Definition len {A : Type} (xs : list A) : Z := Z.of_nat (List.length xs).

(* ===================================================================== *)
(** ** Data model *)
(* ===================================================================== *)

(** [RateLimiterMode]: the two modes the admission layer asks for. *)
Inductive RateLimiterMode := ModeCrawl | ModeExtract.

(** The part of [crawlerOptions] that is read: [delay]. *)
Record CrawlerOptions := { delay : option Z }.

(** The part of [scrapeOptions] that is read: [timeout] (ms). *)
Record ScrapeOptions := { timeout : option Z }.

Record InternalOptions := {
  io_zeroDataRetention : option bool;
  v1Agent : option string;
  v1JSONAgent : option string
}.

(** [WebScraperOptions]: the job payload. *)
Record WebScraperOptions := {
  url : string;
  mode : string;
  team_id : string;
  crawl_id : option string;
  crawlerOptions : option CrawlerOptions;
  scrapeOptions : option ScrapeOptions;
  internalOptions : option InternalOptions;
  zeroDataRetention : option bool;
  is_extract : bool;
  from_extract : bool;
  concurrencyLimited : option bool
}.

(** [webScraperOptions.concurrencyLimited = true] *)
Definition setConcurrencyLimited (o : WebScraperOptions) : WebScraperOptions :=
  {| url := url o; mode := mode o; team_id := team_id o;
     crawl_id := crawl_id o; crawlerOptions := crawlerOptions o;
     scrapeOptions := scrapeOptions o; internalOptions := internalOptions o;
     zeroDataRetention := zeroDataRetention o; is_extract := is_extract o;
     from_extract := from_extract o; concurrencyLimited := Some true |}.

(** [StoredCrawl]: the crawl record, as far as it is read. *)
Record StoredCrawl := {
  sc_crawlerOptions : option CrawlerOptions;
  sc_maxConcurrency : option Z
}.

(** The tenant record returned by [getACUCTeam], as far as it is read. *)
Record ACUC := { concurrency : Z }.

(** Queue options: the caller's bag of options with the two keys the
    dispatcher overwrites. *)
Record JobOpts := {
  opt_extra : list (string * string);
  opt_priority : option Z;
  opt_jobId : option string
}.

(** [{ ...options, priority: jobPriority, jobId }] *)
Definition spreadOpts (options : JobOpts) (jobPriority : Z) (jobId : string)
  : JobOpts :=
  {| opt_extra := opt_extra options;
     opt_priority := Some jobPriority;
     opt_jobId := Some jobId |}.

(** The handle the worker queue returns. *)
Record Job := {
  job_id : string;
  job_data : WebScraperOptions;
  job_opts : JobOpts
}.

(** An entry of the concurrency queue. *)
Record CQEntry := {
  cq_id : string;
  cq_data : WebScraperOptions;
  cq_opts : JobOpts;
  cq_priority : Z
}.

(** The hold time of a deferred entry: a number of ms or [Infinity]. *)
Inductive HoldMs := Finite (ms : Z) | Infinity.

(** An element of the array [addScrapeJobs] receives. *)
Record BulkJob := {
  data : WebScraperOptions;
  bj_jobId : string;
  bj_priority : Z
}.

(** [job.opts] of a bulk job, [{ jobId, priority }], as queue options. *)
Definition opts (j : BulkJob) : JobOpts :=
  {| opt_extra := []; opt_priority := Some (bj_priority j);
     opt_jobId := Some (bj_jobId j) |}.

(** The local [concurrencyLimited] of [addScrapeJobRaw]:
    ["yes" | "yes-crawl" | "no"]. *)
Inductive Limited := Yes | YesCrawl | No.

(* ===================================================================== *)
(** ** Calls to the collaborators *)
(* ===================================================================== *)

Inductive Call :=
| GetCrawl (crawlId : string)
| GetCrawlConcurrencyLimitActiveJobs (crawlId : string)
| GetACUCTeam (teamId : string) (m : RateLimiterMode)
| CleanOldConcurrencyLimitEntries (teamId : string) (now : Z)
| GetConcurrencyLimitActiveJobs (teamId : string) (now : Z)
| GetConcurrencyQueueJobsCount (teamId : string)
| ShouldSendConcurrencyLimitNotification (teamId : string)
| SendNotificationWithCustomDays (teamId : string) (days : Z)
| PushConcurrencyLimitedJob (teamId : string) (e : CQEntry) (hold : HoldMs)
| PushConcurrencyLimitActiveJob (teamId : string) (jobId : string) (ttl : Z)
| PushCrawlConcurrencyLimitActiveJob (crawlId : string) (jobId : string) (ttl : Z)
| MirrorToStaging (u : string)
| QueueAdd (jobId : string) (d : WebScraperOptions) (o : JobOpts).

(** The collaborators, over a store [W].  Reads leave the store as it is;
    writes return the new store. *)
Class Backend (W : Type) := {
  dateNow : W -> Z;
  getCrawl : string -> W -> option StoredCrawl;
  getCrawlConcurrencyLimitActiveJobs : string -> W -> list string;
  getACUCTeam : string -> RateLimiterMode -> W -> option ACUC;
  cleanOldConcurrencyLimitEntries : string -> Z -> W -> W;
  getConcurrencyLimitActiveJobs : string -> Z -> W -> list string;
  getConcurrencyQueueJobsCount : string -> W -> Z;
  shouldSendConcurrencyLimitNotification : string -> W -> bool;
  sendNotificationWithCustomDays : string -> Z -> W -> W;
  pushConcurrencyLimitedJob : string -> CQEntry -> HoldMs -> W -> W;
  pushConcurrencyLimitActiveJob : string -> string -> Z -> W -> W;
  pushCrawlConcurrencyLimitActiveJob : string -> string -> Z -> W -> W;
  (** the draw of the staging mirror: rate set, host set, random below rate *)
  mirrorDraw : W -> bool;
  queueAdd : string -> WebScraperOptions -> JobOpts -> W -> W
}.

(* ===================================================================== *)
(** ** The monad: store passing with a log of calls *)
(* ===================================================================== *)

Section Monad.
Variable W : Type.

Definition M (A : Type) : Type := W -> A * W * list Call.

Definition ret {A : Type} (a : A) : M A := fun w => (a, w, []).

Definition bind {A B : Type} (c : M A) (k : A -> M B) : M B :=
  fun w =>
    let '(a, w1, t1) := c w in
    let '(b, w2, t2) := k a w1 in
    (b, w2, t1 ++ t2).

(** A read of the store, logged. *)
Definition readCall {A : Type} (c : Call) (f : W -> A) : M A :=
  fun w => (f w, w, [c]).

(** A write to the store, logged. *)
Definition writeCall (c : Call) (f : W -> W) : M unit :=
  fun w => (tt, f w, [c]).

(** A read that is not a call to a collaborator ([Date.now()]). *)
Definition peek {A : Type} (f : W -> A) : M A :=
  fun w => (f w, w, []).

(** [for (const x of xs) { await body(x) }] *)
Fixpoint forEach {A : Type} (body : A -> M unit) (xs : list A) : M unit :=
  match xs with
  | [] => ret tt
  | x :: rest => bind (body x) (fun _ => forEach body rest)
  end.

Definition valueOf {A : Type} (r : A * W * list Call) : A := fst (fst r).
Definition storeOf {A : Type} (r : A * W * list Call) : W := snd (fst r).
Definition callsOf {A : Type} (r : A * W * list Call) : list Call := snd r.
End Monad.

Arguments ret {W A} a.
Arguments bind {W A B} c k.
Arguments readCall {W A} c f.
Arguments writeCall {W} c f.
Arguments peek {W A} f.
Arguments forEach {W A} body xs.
Arguments valueOf {W A} r.
Arguments storeOf {W A} r.
Arguments callsOf {W A} r.

Declare Scope job_scope.
Delimit Scope job_scope with job.
Notation "x <- c ;; k" := (bind c (fun x => k))
  (at level 61, c at next level, right associativity) : job_scope.
Notation "c ;;; k" := (bind c (fun _ => k))
  (at level 61, right associativity) : job_scope.
Local Open Scope job_scope.

(* ===================================================================== *)
(** ** The admission layer *)
(* ===================================================================== *)

(** [new Map()] with [has]/[set]/[get(...).push]: keys in order of first
    insertion, each bucket in order of arrival. *)
Fixpoint mapPush {A : Type} (k : string) (v : A) (m : list (string * list A))
  : list (string * list A) :=
  match m with
  | [] => [(k, [v])]
  | (k', vs) :: rest =>
      if String.eqb k k' then (k', vs ++ [v]) :: rest
      else (k', vs) :: mapPush k v rest
  end.

Definition groupBy {A : Type} (key : A -> string) (xs : list A)
  : list (string * list A) :=
  fold_left (fun m x => mapPush (key x) x m) xs [].

(** [crawl.crawlerOptions?.delay] *)
Definition crawlDelay (crawl : StoredCrawl) : option Z :=
  match sc_crawlerOptions crawl with
  | Some co => delay co
  | None => None
  end.

(** The [concurrencyLimit] of lines 142-146 and 284-288:
    [!crawl ? null
       : delay === undefined && maxConcurrency === undefined ? null
       : crawl.maxConcurrency ?? 1] *)
Definition crawlConcurrencyLimit (crawl : option StoredCrawl) : option Z :=
  match crawl with
  | None => None
  | Some c =>
      if negb (isSome (crawlDelay c)) && negb (isSome (sc_maxConcurrency c))
      then None
      else Some (nullish (sc_maxConcurrency c) 1)
  end.

(** [isCrawlOrBatchScrape]: [!!options.crawlerOptions || !!options.crawl_id] *)
Definition isCrawlOrBatchScrape (options : WebScraperOptions) : bool :=
  isSome (crawlerOptions options) || isSome (truthyId (crawl_id options)).

(** The third argument of [pushConcurrencyLimitedJob] (line 53):
    [crawl_id ? Infinity : (scrapeOptions?.timeout ?? (60 * 1000))] *)
Definition holdMs (webScraperOptions : WebScraperOptions) : HoldMs :=
  match truthyId (crawl_id webScraperOptions) with
  | Some _ => Infinity
  | None =>
      Finite (nullish (match scrapeOptions webScraperOptions with
                       | Some so => timeout so
                       | None => None
                       end) (60 * 1000))
  end.

(** The payload-dependent conjuncts of [shouldABTest] (lines 68-75). *)
Definition mirrorEligible (o : WebScraperOptions) : bool :=
  String.eqb (mode o) "single_urls"
  && negb (truthyBool (zeroDataRetention o))
  && negb (truthyBool (match internalOptions o with
                       | Some io => io_zeroDataRetention io
                       | None => None
                       end))
  && negb (isSome (match internalOptions o with
                   | Some io => v1Agent io
                   | None => None
                   end))
  && negb (isSome (match internalOptions o with
                   | Some io => v1JSONAgent io
                   | None => None
                   end)).

Section Admission.
Context {W : Type} {BE : Backend W}.

(** [_addScrapeJobToConcurrencyQueue] (lines 38-54) *)
Definition _addScrapeJobToConcurrencyQueue
    (webScraperOptions : WebScraperOptions) (options : JobOpts)
    (jobId : string) (jobPriority : Z) : M W unit :=
  let entry := {| cq_id := jobId;
                  cq_data := webScraperOptions;
                  cq_opts := spreadOpts options jobPriority jobId;
                  cq_priority := jobPriority |} in
  let hold := holdMs webScraperOptions in
  writeCall
    (PushConcurrencyLimitedJob (team_id webScraperOptions) entry hold)
    (pushConcurrencyLimitedJob (team_id webScraperOptions) entry hold).

(** [_addScrapeJobToBullMQ] (lines 56-124).  The mirror to staging is
    started and not awaited: it is logged where it starts. *)
Definition _addScrapeJobToBullMQ
    (webScraperOptions : WebScraperOptions) (options : JobOpts)
    (jobId : string) (jobPriority : Z) : M W Job :=
  draw <- peek mirrorDraw ;;
  (if mirrorEligible webScraperOptions && draw
   then readCall (MirrorToStaging (url webScraperOptions)) (fun _ => tt)
   else ret tt) ;;;
  (if truthyString (team_id webScraperOptions) then
     writeCall
       (PushConcurrencyLimitActiveJob (team_id webScraperOptions) jobId
                                      (60 * 1000))
       (pushConcurrencyLimitActiveJob (team_id webScraperOptions) jobId
                                      (60 * 1000)) ;;;
     match truthyId (crawl_id webScraperOptions) with
     | Some crawlId =>
         sc <- readCall (GetCrawl crawlId) (getCrawl crawlId) ;;
         if truthyNumber (match crawlerOptions webScraperOptions with
                          | Some co => delay co
                          | None => None
                          end)
            || truthyNumber (match sc with
                             | Some c => sc_maxConcurrency c
                             | None => None
                             end)
         then writeCall
                (PushCrawlConcurrencyLimitActiveJob crawlId jobId (60 * 1000))
                (pushCrawlConcurrencyLimitActiveJob crawlId jobId (60 * 1000))
         else ret tt
     | None => ret tt
     end
   else ret tt) ;;;
  let o := spreadOpts options jobPriority jobId in
  writeCall (QueueAdd jobId webScraperOptions o)
            (queueAdd jobId webScraperOptions o) ;;;
  ret {| job_id := jobId; job_data := webScraperOptions; job_opts := o |}.

(** The crawl gate of [addScrapeJobRaw] (lines 140-155): the value of
    the local [concurrencyLimited] after it, [null] or ["yes-crawl"]. *)
Definition crawlGate (webScraperOptions : WebScraperOptions)
  : M W (option Limited) :=
  match truthyId (crawl_id webScraperOptions) with
  | Some crawlId =>
      crawl <- readCall (GetCrawl crawlId) (getCrawl crawlId) ;;
      match crawlConcurrencyLimit crawl with
      | Some concurrencyLimit =>
          active <- readCall (GetCrawlConcurrencyLimitActiveJobs crawlId)
                             (getCrawlConcurrencyLimitActiveJobs crawlId) ;;
          let crawlConcurrency := len active in
          let freeSlots := freeSlotsOf concurrencyLimit crawlConcurrency in
          if freeSlots =? 0 then ret (Some YesCrawl) else ret None
      | None => ret None
      end
  | None => ret None
  end.

(** The tenant gate of [addScrapeJobRaw] (lines 157-163). *)
Definition tenantGate (webScraperOptions : WebScraperOptions)
  : M W Limited :=
  now <- peek dateNow ;;
  let m := if is_extract webScraperOptions then ModeExtract else ModeCrawl in
  acuc <- readCall (GetACUCTeam (team_id webScraperOptions) m)
                   (getACUCTeam (team_id webScraperOptions) m) ;;
  let maxConcurrency := nullish (option_map concurrency acuc) 2 in
  writeCall
    (CleanOldConcurrencyLimitEntries (team_id webScraperOptions) now)
    (cleanOldConcurrencyLimitEntries (team_id webScraperOptions) now) ;;;
  active <- readCall
              (GetConcurrencyLimitActiveJobs (team_id webScraperOptions) now)
              (getConcurrencyLimitActiveJobs (team_id webScraperOptions) now) ;;
  let currentActiveConcurrency := len active in
  ret (if currentActiveConcurrency >=? maxConcurrency then Yes else No).

(** Lines 133-164 of [addScrapeJobRaw]: the final value of the local
    [concurrencyLimited]. *)
Definition admissionVerdict (webScraperOptions : WebScraperOptions)
    (directToBullMQ : bool) : M W Limited :=
  if directToBullMQ then ret No
  else
    concurrencyLimited <- crawlGate webScraperOptions ;;
    match concurrencyLimited with
    | None => tenantGate webScraperOptions
    | Some v => ret v
    end.

(** The notification block of the single-job path (lines 167-183).
    [maxConcurrency] is the function-level variable of line 135: the
    [const maxConcurrency] of line 159 is local to the block of the
    tenant gate and is not in scope here. *)
Definition notifySingle (maxConcurrency : Z)
    (webScraperOptions : WebScraperOptions) : M W unit :=
  concurrencyQueueJobs <-
    readCall (GetConcurrencyQueueJobsCount (team_id webScraperOptions))
             (getConcurrencyQueueJobsCount (team_id webScraperOptions)) ;;
  if concurrencyQueueJobs >? maxConcurrency then
    shouldSendNotification <-
      readCall
        (ShouldSendConcurrencyLimitNotification (team_id webScraperOptions))
        (shouldSendConcurrencyLimitNotification (team_id webScraperOptions)) ;;
    if (shouldSendNotification : bool) then
      writeCall
        (SendNotificationWithCustomDays (team_id webScraperOptions) 15)
        (sendNotificationWithCustomDays (team_id webScraperOptions) 15)
    else ret tt
  else ret tt.

(** [addScrapeJobRaw] (lines 126-197).  The result is the returned handle
    ([None] for [null]) and the caller's payload object as the call
    leaves it. *)
Definition addScrapeJobRaw
    (webScraperOptions : WebScraperOptions) (options : JobOpts)
    (jobId : string) (jobPriority : Z) (directToBullMQ : bool)
  : M W (option Job * WebScraperOptions) :=
  let maxConcurrency := 0 in
  concurrencyLimited <- admissionVerdict webScraperOptions directToBullMQ ;;
  match concurrencyLimited with
  | Yes | YesCrawl =>
      (match concurrencyLimited with
       | Yes => notifySingle maxConcurrency webScraperOptions
       | _ => ret tt
       end) ;;;
      let webScraperOptions := setConcurrencyLimited webScraperOptions in
      _addScrapeJobToConcurrencyQueue webScraperOptions options jobId
                                      jobPriority ;;;
      ret (None, webScraperOptions)
  | No =>
      job <- _addScrapeJobToBullMQ webScraperOptions options jobId
                                   jobPriority ;;
      ret (Some job, webScraperOptions)
  end.

(** [addScrapeJob] (lines 199-207), with its defaults applied by the
    caller. *)
Definition addScrapeJob := addScrapeJobRaw.

(** Lines 270-279 of [addScrapeJobs]: the jobs of one tenant by crawl,
    and those without a crawl. *)
Definition splitByCrawl (teamJobs : list BulkJob)
  : list (string * list BulkJob) * list BulkJob :=
  fold_left
    (fun acc job =>
       match truthyId (crawl_id (data job)) with
       | Some crawlId => (mapPush crawlId job (fst acc), snd acc)
       | None => (fst acc, snd acc ++ [job])
       end)
    teamJobs ([], []).

(** The two buckets a tenant's jobs are sorted into. *)
Record Buckets := {
  jobsForcedToCQ : list BulkJob;
  jobsPotentiallyInCQ : list BulkJob
}.

(** One turn of the loop of lines 282-304. *)
Definition selectCrawlBucket (b : Buckets) (bucket : string * list BulkJob)
  : M W Buckets :=
  let crawlID := fst bucket in
  let crawlJobs := snd bucket in
  crawl <- readCall (GetCrawl crawlID) (getCrawl crawlID) ;;
  match crawlConcurrencyLimit crawl with
  | None =>
      ret {| jobsForcedToCQ := jobsForcedToCQ b;
             jobsPotentiallyInCQ := jobsPotentiallyInCQ b ++ crawlJobs |}
  | Some concurrencyLimit =>
      active <- readCall (GetCrawlConcurrencyLimitActiveJobs crawlID)
                         (getCrawlConcurrencyLimitActiveJobs crawlID) ;;
      let crawlConcurrency := len active in
      let freeSlots := freeSlotsOf concurrencyLimit crawlConcurrency in
      ret {| jobsForcedToCQ :=
               jobsForcedToCQ b ++ sliceFrom freeSlots crawlJobs;
             jobsPotentiallyInCQ :=
               jobsPotentiallyInCQ b ++ sliceTo freeSlots crawlJobs |}
  end.

Fixpoint selectCrawlBuckets (b : Buckets)
    (buckets : list (string * list BulkJob)) : M W Buckets :=
  match buckets with
  | [] => ret b
  | bucket :: rest =>
      b' <- selectCrawlBucket b bucket ;;
      selectCrawlBuckets b' rest
  end.

(** Lines 236-307: the two buckets of one tenant. *)
Definition selectJobs (teamJobs : list BulkJob) : M W Buckets :=
  let jobsByCrawlID := fst (splitByCrawl teamJobs) in
  let jobsWithoutCrawlID := snd (splitByCrawl teamJobs) in
  b <- selectCrawlBuckets
         {| jobsForcedToCQ := []; jobsPotentiallyInCQ := [] |}
         jobsByCrawlID ;;
  ret {| jobsForcedToCQ := jobsForcedToCQ b;
         jobsPotentiallyInCQ := jobsPotentiallyInCQ b ++ jobsWithoutCrawlID |}.

(** The notification block of the bulk path (lines 323-335); [first] is
    [jobs[0].data]. *)
Definition notifyBulk (first : WebScraperOptions) (backlog : Z)
    (maxConcurrency : Z) : M W unit :=
  if backlog >? maxConcurrency then
    if negb (isCrawlOrBatchScrape first) then
      shouldSendNotification <-
        readCall (ShouldSendConcurrencyLimitNotification (team_id first))
                 (shouldSendConcurrencyLimitNotification (team_id first)) ;;
      if (shouldSendNotification : bool) then
        writeCall (SendNotificationWithCustomDays (team_id first) 15)
                  (sendNotificationWithCustomDays (team_id first) 15)
      else ret tt
    else ret tt
  else ret tt.

(** The body of the loop over tenants (lines 235-360).  Each of the two
    [Promise.all] starts its jobs in array order; the jobs are run one
    after the other here, the calls of one job before the calls of the
    next. *)
Definition addScrapeJobsTeam (first : WebScraperOptions) (teamId : string)
    (teamJobs : list BulkJob) : M W unit :=
  b <- selectJobs teamJobs ;;
  now <- peek dateNow ;;
  let m := if from_extract first then ModeExtract else ModeCrawl in
  acuc <- readCall (GetACUCTeam teamId m) (getACUCTeam teamId m) ;;
  let maxConcurrency := nullish (option_map concurrency acuc) 2 in
  writeCall (CleanOldConcurrencyLimitEntries teamId now)
            (cleanOldConcurrencyLimitEntries teamId now) ;;;
  active <- readCall (GetConcurrencyLimitActiveJobs teamId now)
                     (getConcurrencyLimitActiveJobs teamId now) ;;
  let currentActiveConcurrency := len active in
  let countCanBeDirectlyAdded :=
    freeSlotsOf maxConcurrency currentActiveConcurrency in
  let addToBull := sliceTo countCanBeDirectlyAdded (jobsPotentiallyInCQ b) in
  let addToCQ :=
    sliceFrom countCanBeDirectlyAdded (jobsPotentiallyInCQ b)
    ++ jobsForcedToCQ b in
  notifyBulk first
             (len (jobsPotentiallyInCQ b) - countCanBeDirectlyAdded)
             maxConcurrency ;;;
  forEach (fun job =>
             _addScrapeJobToConcurrencyQueue (data job) (opts job)
                                             (bj_jobId job) (bj_priority job))
          addToCQ ;;;
  forEach (fun job =>
             _addScrapeJobToBullMQ (data job) (opts job)
                                   (bj_jobId job) (bj_priority job) ;;;
             ret tt)
          addToBull.

(** [addScrapeJobs] (lines 209-361). *)
Definition addScrapeJobs (jobs : list BulkJob) : M W unit :=
  match jobs with
  | [] => ret tt
  | first :: _ =>
      forEach (fun bucket =>
                 addScrapeJobsTeam (data first) (fst bucket) (snd bucket))
              (groupBy (fun job => team_id (data job)) jobs)
  end.

End Admission.

(* ===================================================================== *)
(** ** A concrete backend *)
(* ===================================================================== *)

Module Ledger.

(** Modelled from the spec: the stores behind lib/concurrency-limit,
    lib/crawl-redis, controllers/auth, services/notification and
    services/queue-service are not part of the sources at hand.  The
    state follows the persisted layout of section 6 of the
    specification: per tenant a set of active job ids with an expiry and
    an ordered list of deferred entries, per crawl a set of active job
    ids, per tenant the notification record. *)
Record World := {
  clock : Z;
  crawls : list (string * StoredCrawl);
  tenants : list (string * (RateLimiterMode * ACUC));
  active : list (string * (string * Z));
  crawlActive : list (string * (string * Z));
  deferred : list (string * (CQEntry * HoldMs));
  lastSent : list string;
  mirror : bool;
  workerQueue : list Job
}.

Definition modeEqb (a b : RateLimiterMode) : bool :=
  match a, b with
  | ModeCrawl, ModeCrawl | ModeExtract, ModeExtract => true
  | _, _ => false
  end.

Fixpoint lookup {A : Type} (k : string) (m : list (string * A)) : option A :=
  match m with
  | [] => None
  | (k', v) :: rest => if String.eqb k k' then Some v else lookup k rest
  end.

Definition withActive (a : list (string * (string * Z))) (w : World) :=
  {| clock := clock w; crawls := crawls w; tenants := tenants w;
     active := a; crawlActive := crawlActive w; deferred := deferred w;
     lastSent := lastSent w; mirror := mirror w;
     workerQueue := workerQueue w |}.

Definition withCrawlActive (a : list (string * (string * Z))) (w : World) :=
  {| clock := clock w; crawls := crawls w; tenants := tenants w;
     active := active w; crawlActive := a; deferred := deferred w;
     lastSent := lastSent w; mirror := mirror w;
     workerQueue := workerQueue w |}.

Definition withDeferred (d : list (string * (CQEntry * HoldMs))) (w : World) :=
  {| clock := clock w; crawls := crawls w; tenants := tenants w;
     active := active w; crawlActive := crawlActive w; deferred := d;
     lastSent := lastSent w; mirror := mirror w;
     workerQueue := workerQueue w |}.

Definition withLastSent (l : list string) (w : World) :=
  {| clock := clock w; crawls := crawls w; tenants := tenants w;
     active := active w; crawlActive := crawlActive w;
     deferred := deferred w; lastSent := l; mirror := mirror w;
     workerQueue := workerQueue w |}.

Definition withWorkerQueue (q : list Job) (w : World) :=
  {| clock := clock w; crawls := crawls w; tenants := tenants w;
     active := active w; crawlActive := crawlActive w;
     deferred := deferred w; lastSent := lastSent w; mirror := mirror w;
     workerQueue := q |}.

(** Entries of owner [k] that expire after [now]. *)
Definition liveOf (k : string) (now : Z) (m : list (string * (string * Z)))
  : list string :=
  map (fun e => fst (snd e))
      (filter (fun e => String.eqb k (fst e) && (now <? snd (snd e))) m).

(** Modelled from the spec: push-active; a repeated job id refreshes the
    expiry. *)
Definition pushEntry (k jobId : string) (expires : Z)
    (m : list (string * (string * Z))) : list (string * (string * Z)) :=
  filter (fun e => negb (String.eqb k (fst e)
                         && String.eqb jobId (fst (snd e)))) m
  ++ [(k, (jobId, expires))].

(** Modelled from the spec: clean-expired removes the entries of the
    tenant with [expires_at <= now]. *)
Definition cleanExpired (k : string) (now : Z)
    (m : list (string * (string * Z))) : list (string * (string * Z)) :=
  filter (fun e => negb (String.eqb k (fst e) && (snd (snd e) <=? now))) m.

(** Modelled from the spec: push-deferred keeps each tenant's entries by
    ascending priority, arrival order within a priority; a repeated job
    id replaces the prior entry. *)
Fixpoint insertDeferred (x : string * (CQEntry * HoldMs))
    (m : list (string * (CQEntry * HoldMs)))
  : list (string * (CQEntry * HoldMs)) :=
  match m with
  | [] => [x]
  | y :: rest =>
      if cq_priority (fst (snd x)) <? cq_priority (fst (snd y))
      then x :: y :: rest
      else y :: insertDeferred x rest
  end.

Definition pushDeferred (k : string) (e : CQEntry) (hold : HoldMs)
    (m : list (string * (CQEntry * HoldMs)))
  : list (string * (CQEntry * HoldMs)) :=
  insertDeferred (k, (e, hold))
    (filter (fun y => negb (String.eqb k (fst y)
                            && String.eqb (cq_id e) (cq_id (fst (snd y)))))
            m).

Definition countDeferred (k : string)
    (m : list (string * (CQEntry * HoldMs))) : Z :=
  len (filter (fun y => String.eqb k (fst y)) m).

Definition lookupTenant (k : string) (m : RateLimiterMode)
    (ts : list (string * (RateLimiterMode * ACUC))) : option ACUC :=
  option_map (fun t => snd (snd t))
    (find (fun t => String.eqb k (fst t) && modeEqb m (fst (snd t))) ts).

#[global] Instance backend : Backend World := {|
  dateNow := clock;
  getCrawl := fun crawlId w => lookup crawlId (crawls w);
  getCrawlConcurrencyLimitActiveJobs :=
    fun crawlId w => liveOf crawlId (clock w) (crawlActive w);
  getACUCTeam := fun teamId m w => lookupTenant teamId m (tenants w);
  cleanOldConcurrencyLimitEntries :=
    fun teamId now w => withActive (cleanExpired teamId now (active w)) w;
  getConcurrencyLimitActiveJobs :=
    fun teamId now w => liveOf teamId now (active w);
  getConcurrencyQueueJobsCount :=
    fun teamId w => countDeferred teamId (deferred w);
  shouldSendConcurrencyLimitNotification :=
    fun teamId w => negb (existsb (String.eqb teamId) (lastSent w));
  sendNotificationWithCustomDays :=
    fun teamId _ w => withLastSent (lastSent w ++ [teamId]) w;
  pushConcurrencyLimitedJob :=
    fun teamId e hold w =>
      withDeferred (pushDeferred teamId e hold (deferred w)) w;
  pushConcurrencyLimitActiveJob :=
    fun teamId jobId ttl w =>
      withActive (pushEntry teamId jobId (clock w + ttl) (active w)) w;
  pushCrawlConcurrencyLimitActiveJob :=
    fun crawlId jobId ttl w =>
      withCrawlActive
        (pushEntry crawlId jobId (clock w + ttl) (crawlActive w)) w;
  mirrorDraw := mirror;
  queueAdd :=
    fun jobId d o w =>
      withWorkerQueue
        (workerQueue w
         ++ [{| job_id := jobId; job_data := d; job_opts := o |}]) w
|}.

(** A payload with nothing but a tenant and a url. *)
Definition plain (teamId u : string) : WebScraperOptions :=
  {| url := u; mode := "single_urls"; team_id := teamId;
     crawl_id := None; crawlerOptions := None; scrapeOptions := None;
     internalOptions := None; zeroDataRetention := None;
     is_extract := false; from_extract := false;
     concurrencyLimited := None |}.

(** The same payload inside a crawl. *)
Definition inCrawl (teamId u crawlId : string) : WebScraperOptions :=
  {| url := u; mode := "single_urls"; team_id := teamId;
     crawl_id := Some crawlId; crawlerOptions := None;
     scrapeOptions := None; internalOptions := None;
     zeroDataRetention := None; is_extract := false;
     from_extract := false; concurrencyLimited := None |}.

Definition noOpts : JobOpts :=
  {| opt_extra := []; opt_priority := None; opt_jobId := None |}.

(** An empty store at time [1000]. *)
Definition empty : World :=
  {| clock := 1000; crawls := []; tenants := []; active := [];
     crawlActive := []; deferred := []; lastSent := []; mirror := false;
     workerQueue := [] |}.

End Ledger.

(* ===================================================================== *)
(** ** The wait primitive *)
(* ===================================================================== *)

(** The result document, as far as the wait primitive is concerned. *)
Record Document := { markdown : string }.

(** Modelled from the spec: lib/error is not part of the sources at hand.
    A transportable error is a structured error with a kind, a message and
    an optional cause (section 7 of the specification). *)
Record TransportableError := {
  code : string;
  message : string;
  cause : option string
}.

(** What a [throw] can carry: an instance of [TransportableError], another
    [Error], or a value that is no [Error]. *)
Inductive Thrown :=
| Typed (e : TransportableError)
| Generic (msg : string)
| NonError (v : string).

(** Modelled from the spec: [ScrapeJobTimeoutError] is the transportable
    error of kind SCRAPE_TIMEOUT; the two timeouts of the wait primitive
    differ by their message. *)
Definition ScrapeJobTimeoutError (msg : string) : Thrown :=
  Typed {| code := "SCRAPE_TIMEOUT"; message := msg; cause := None |}.

(** How a promise settles. *)
Inductive Settled (A : Type) :=
| Resolved (a : A)
| Rejected (e : Thrown).
Arguments Resolved {A} a.
Arguments Rejected {A} e.

Inductive WaitCall :=
| Sleep (ms : Z)
| QueueGetJob (jobId : string)
| GetJobFromGCS (jobId : string)
| RemoveJobFromGCS (jobId : string).

(** What a call of [waitForJob] meets: the clock, the worker queue and the
    blob store.  [nowAt k] is the [k]-th reading of [Date.now()] ([nowAt 0]
    is [start]); [getJobAt k] is the [k]-th answer of [queue.getJob];
    [finish] is when and how the job finishes, if it ever does (a resolved
    [None] is a finished job without an inline document); [ttlMessage] is
    the message of the error with which the worker queue gives up a
    [waitUntilFinished] after its [ttl]. *)
Record WaitEnv := {
  nowAt : nat -> Z;
  getJobAt : nat -> option Job;
  finish : option (Z * Settled (option Document));
  ttlMessage : string;
  getJobFromGCS : string -> option (list Document)
}.

(** [Promise.race]: the racer that settles first, the earlier in the array
    when two settle together. *)
Fixpoint earliest {A : Type} (best : Z * A) (rest : list (Z * A)) : A :=
  match rest with
  | [] => snd best
  | x :: rest' =>
      if fst x <? fst best then earliest x rest' else earliest best rest'
  end.

Section Wait.
(** [deserializeTransportableError] of lib/error-serde, which is not part
    of the sources at hand. *)
Variable deserializeTransportableError : string -> option TransportableError.
Variable env : WaitEnv.

Definition inQueueMessage : string :=
  "Scrape timed out while waiting in the concurrency limit queue".

(** The message of the deadline of line 385. *)
Definition deadlineMessage (_job : Job + string) : string :=
  String.append "Scrape timed out"
    (match _job with
     | inr _ => " after waiting in the concurrency limit queue"
     | inl _ => EmptyString
     end).

(** The loop of lines 371-378, entered with [k - 1] polls done.  [None]
    when the fuel runs out. *)
Fixpoint pollJob (fuel : nat) (k : nat) (jobId : string) (limit : Z)
    (job : option Job) : option ((Job + Thrown) * nat * list WaitCall) :=
  match job with
  | Some j => Some (inl j, k, [])
  | None =>
      match fuel with
      | O => None
      | S fuel' =>
          let job' := getJobAt env k in
          if nowAt env k - nowAt env 0 >? limit
          then Some (inr (ScrapeJobTimeoutError inQueueMessage), k,
                     [Sleep 500; QueueGetJob jobId])
          else
            match pollJob fuel' (S k) jobId limit job' with
            | Some (r, n, calls) =>
                Some (r, n, Sleep 500 :: QueueGetJob jobId :: calls)
            | None => None
            end
      end
  end.

(** The race of lines 381-388, started when the clock has been read [k]
    times.  The racers are the completion of the job, the deadline timer
    of [max(0, timeout - elapsed)] (only with a timeout), and the
    [timeout ?? 180000] after which [waitUntilFinished] gives up.  A tie
    goes to the completion, then to the deadline timer, which is set
    before the worker queue sets its own. *)
Definition raceJob (_job : Job + string) (timeout : option Z) (k : nat)
  : Settled (option Document) :=
  let start := nowAt env 0 in
  let t0 := nowAt env k in
  let ttl := (t0 + nullish timeout 180000,
              @Rejected (option Document) (Generic (ttlMessage env))) in
  let deadline :=
    match timeout with
    | Some t =>
        [(t0 + Z.max 0 (t - (t0 - start)),
          @Rejected (option Document)
            (ScrapeJobTimeoutError (deadlineMessage _job)))]
    | None => []
    end in
  match finish env with
  | Some f => earliest f (deadline ++ [ttl])
  | None =>
      match deadline with
      | d :: _ => earliest d [ttl]
      | [] => snd ttl
      end
  end.

(** The [catch] of lines 389-402: what is thrown on for [e]. *)
Definition rethrown (e : Thrown) : Thrown :=
  match e with
  | Typed _ => e
  | Generic msg =>
      match deserializeTransportableError msg with
      | Some x => Typed x
      | None => e
      end
  | NonError _ => e
  end.

(** Lines 405-418: the document when the completion carries none. *)
Definition fromGCS (job : Job) : Settled Document * list WaitCall :=
  let docs := getJobFromGCS env (job_id job) in
  match docs with
  | Some (doc :: _) =>
      if truthyBool (match internalOptions (job_data job) with
                     | Some io => io_zeroDataRetention io
                     | None => None
                     end)
      then (Resolved doc,
            [GetJobFromGCS (job_id job); RemoveJobFromGCS (job_id job)])
      else (Resolved doc, [GetJobFromGCS (job_id job)])
  | _ => (Rejected (Generic "Job not found in GCS"),
          [GetJobFromGCS (job_id job)])
  end.

(** [waitForJob] (lines 363-419); [None] when the fuel of the polling
    loop runs out. *)
Definition waitForJob (fuel : nat) (_job : Job + string)
    (timeout : option Z) : option (Settled Document * list WaitCall) :=
  let first :=
    match _job with
    | inr jobId => (getJobAt env 0, [QueueGetJob jobId])
    | inl j => (Some j, [])
    end in
  let jobId := match _job with inr jobId => jobId | inl j => job_id j end in
  match pollJob fuel 1 jobId (nullish timeout 180000) (fst first) with
  | None => None
  | Some (inr e, _, calls) => Some (Rejected e, snd first ++ calls)
  | Some (inl job, k, calls) =>
      match raceJob _job timeout k with
      | Rejected e => Some (Rejected (rethrown e), snd first ++ calls)
      | Resolved (Some doc) => Some (Resolved doc, snd first ++ calls)
      | Resolved None =>
          Some (fst (fromGCS job), snd first ++ calls ++ snd (fromGCS job))
      end
  end.

End Wait.


(* ===================================================================== *)
(** ** What the theorems speak of *)
(* ===================================================================== *)

(** The calls that take a slot or reach the worker queue. *)
Definition isDispatch (c : Call) : bool :=
  match c with
  | PushConcurrencyLimitActiveJob _ _ _
  | PushCrawlConcurrencyLimitActiveJob _ _ _
  | QueueAdd _ _ _ => true
  | _ => false
  end.

Definition isPushActive (c : Call) : bool :=
  match c with PushConcurrencyLimitActiveJob _ _ _ => true | _ => false end.

Definition isCrawlPushActive (c : Call) : bool :=
  match c with PushCrawlConcurrencyLimitActiveJob _ _ _ => true | _ => false end.

Definition isQueueAdd (c : Call) : bool :=
  match c with QueueAdd _ _ _ => true | _ => false end.

Definition isPushDeferred (c : Call) : bool :=
  match c with PushConcurrencyLimitedJob _ _ _ => true | _ => false end.

(** The notification gate is entered by asking whether a notification may
    be sent. *)
Definition isNotificationGate (c : Call) : bool :=
  match c with ShouldSendConcurrencyLimitNotification _ => true | _ => false end.

(** The per-crawl ceiling in the words of the specification:
    [max_concurrency] if set, else 1 if [delay] is present, else
    unbounded; a missing record is unbounded. *)
Definition specCrawlCeiling (crawl : option StoredCrawl) : option Z :=
  match crawl with
  | None => None
  | Some c =>
      match sc_maxConcurrency c with
      | Some m => Some m
      | None =>
          match crawlDelay c with
          | Some _ => Some 1
          | None => None
          end
      end
  end.

(** The tenant ceiling: the [concurrency] of the tenant record, 2 without
    one. *)
Definition tenantCeiling (acuc : option ACUC) : Z :=
  match acuc with
  | Some a => concurrency a
  | None => 2
  end.

(** The mode the single-job path asks the tenant ceiling for. *)
Definition gateMode (o : WebScraperOptions) : RateLimiterMode :=
  if is_extract o then ModeExtract else ModeCrawl.

(** The mode the bulk path asks the tenant ceiling for; [first] is
    [jobs[0].data]. *)
Definition bulkMode (first : WebScraperOptions) : RateLimiterMode :=
  if from_extract first then ModeExtract else ModeCrawl.

(** [webScraperOptions.crawlerOptions?.delay] of the job payload. *)
Definition jobDelay (o : WebScraperOptions) : option Z :=
  match crawlerOptions o with
  | Some co => delay co
  | None => None
  end.

(** [sc?.maxConcurrency] *)
Definition recordMaxConcurrency (sc : option StoredCrawl) : option Z :=
  match sc with
  | Some c => sc_maxConcurrency c
  | None => None
  end.

(** The crawl record has a delay or a maximal concurrency. *)
Definition crawlConfigured (sc : option StoredCrawl) : bool :=
  match sc with
  | Some c => isSome (crawlDelay c) || isSome (sc_maxConcurrency c)
  | None => false
  end.

(** The entry [_addScrapeJobToConcurrencyQueue] pushes. *)
Definition deferredEntry (o : WebScraperOptions) (options : JobOpts)
    (jobId : string) (jobPriority : Z) : CQEntry :=
  {| cq_id := jobId; cq_data := o;
     cq_opts := spreadOpts options jobPriority jobId;
     cq_priority := jobPriority |}.

(** The scrape timeout of a payload, 60 000 ms when it has none. *)
Definition scrapeTimeout (o : WebScraperOptions) : Z :=
  match scrapeOptions o with
  | Some so => match timeout so with Some t => t | None => 60000 end
  | None => 60000
  end.


(** The worker-queue call and the deferral a bulk job gives rise to. *)
Definition enqueueOf (j : BulkJob) : Call :=
  QueueAdd (bj_jobId j) (data j)
           (spreadOpts (opts j) (bj_priority j) (bj_jobId j)).

Definition deferOf (j : BulkJob) : Call :=
  PushConcurrencyLimitedJob (team_id (data j))
    (deferredEntry (data j) (opts j) (bj_jobId j) (bj_priority j))
    (holdMs (data j)).

(** The crawl a bulk job belongs to, if any. *)
Definition crawlOf (j : BulkJob) : option string :=
  truthyId (crawl_id (data j)).

Definition inCrawlB (cid : string) (j : BulkJob) : bool :=
  match crawlOf j with
  | Some c => String.eqb cid c
  | None => false
  end.

Definition noCrawlB (j : BulkJob) : bool := negb (isSome (crawlOf j)).

(** The keys of a list in order of first occurrence. *)
Definition firstOccurrences (ks : list string) : list string :=
  fold_left (fun acc k => if existsb (String.eqb k) acc then acc
                          else acc ++ [k]) ks [].

(** The crawl ids of a list of jobs, one per job in a crawl. *)
Definition crawlIds (js : list BulkJob) : list string :=
  flat_map (fun j => match crawlOf j with Some c => [c] | None => [] end) js.

(** The ids of the jobs handed to the worker queue. *)
Definition enqueuedJobIds (calls : list Call) : list string :=
  flat_map (fun c => match c with QueueAdd jobId _ _ => [jobId] | _ => [] end)
           calls.

Section Observations.
Context {W : Type} {BE : Backend W}.
Implicit Types (w : W) (o : WebScraperOptions).

(** The calls of the enqueue path after the mirror and before the enqueue. *)
Definition slotCalls w o (jobId : string) : list Call :=
  if truthyString (team_id o) then
    PushConcurrencyLimitActiveJob (team_id o) jobId 60000
    :: match truthyId (crawl_id o) with
       | Some cid =>
           GetCrawl cid
           :: (if truthyNumber (jobDelay o)
                  || truthyNumber
                       (recordMaxConcurrency
                          (getCrawl cid
                             (pushConcurrencyLimitActiveJob
                                (team_id o) jobId 60000 w)))
               then [PushCrawlConcurrencyLimitActiveJob cid jobId 60000]
               else [])
       | None => []
       end
  else [].

(** The block of [addScrapeJobRaw] before the push of a deferred job. *)
Definition beforeDefer (v : Limited) o : M W unit :=
  match v with
  | Yes => notifySingle 0 o
  | _ => ret tt
  end.

(** The free slots of a crawl, when its ceiling is bounded. *)
Definition crawlFree w (cid : string) : option Z :=
  match specCrawlCeiling (getCrawl cid w) with
  | Some c =>
      Some (Z.max (c - len (getCrawlConcurrencyLimitActiveJobs cid w)) 0)
  | None => None
  end.

(** The part of a crawl bucket that passes the crawl gate, and the part
    that does not. *)
Definition admissiblePart w (bucket : string * list BulkJob) : list BulkJob :=
  match crawlFree w (fst bucket) with
  | Some free => firstn (Z.to_nat free) (snd bucket)
  | None => snd bucket
  end.

Definition forcedPart w (bucket : string * list BulkJob) : list BulkJob :=
  match crawlFree w (fst bucket) with
  | Some free => skipn (Z.to_nat free) (snd bucket)
  | None => []
  end.

(** The headroom of a tenant as the bulk path computes it:
    [max(ceiling - count-active, 0)], counted after clean-expired. *)
Definition bulkCeiling w (first : WebScraperOptions) (teamId : string) : Z :=
  tenantCeiling (getACUCTeam teamId (bulkMode first) w).

Definition bulkHeadroom w (first : WebScraperOptions) (teamId : string) : Z :=
  let now := dateNow w in
  Z.max (bulkCeiling w first teamId
         - len (getConcurrencyLimitActiveJobs teamId now
                  (cleanOldConcurrencyLimitEntries teamId now w))) 0.

(** The claim of the crawl gate read on the bulk path: a job the gate
    forces into the concurrency queue belongs to a crawl with a bounded
    ceiling and no free slot. *)
Definition forcedOnlyWhenFull w (teamJobs : list BulkJob) : Prop :=
  forall j cid,
    In j (jobsForcedToCQ (valueOf (selectJobs teamJobs w))) ->
    crawlOf j = Some cid ->
    exists c,
      specCrawlCeiling (getCrawl cid w) = Some c
      /\ Z.max (c - len (getCrawlConcurrencyLimitActiveJobs cid w)) 0 = 0.



(** The claim on the enqueue path as it is stated: one push-active for the
    tenant, and one crawl-push-active exactly when the job is in a crawl
    whose record has a delay or a maximal concurrency. *)
Definition slotPushesAsStated w o (options : JobOpts) (jobId : string)
    (p : Z) : Prop :=
  let calls := callsOf (_addScrapeJobToBullMQ o options jobId p w) in
  filter isPushActive calls
  = [PushConcurrencyLimitActiveJob (team_id o) jobId 60000]
  /\ filter isCrawlPushActive calls
     = match truthyId (crawl_id o) with
       | Some cid =>
           if crawlConfigured (getCrawl cid w)
           then [PushCrawlConcurrencyLimitActiveJob cid jobId 60000]
           else []
       | None => []
       end.

End Observations.


(** [n] turns of the polling loop. *)
Fixpoint polls (n : nat) (jobId : string) : list WaitCall :=
  match n with
  | O => []
  | S n' => Sleep 500 :: QueueGetJob jobId :: polls n' jobId
  end.

(** The instant of the deadline timer of a wait with timeout [t] whose
    race starts at the [k]-th reading of the clock. *)
Definition deadlineAt (env : WaitEnv) (t : Z) (k : nat) : Z :=
  nowAt env k + Z.max 0 (t - (nowAt env k - nowAt env 0)).

(** The job a reference stands for when the wait starts, the call that
    looks it up, and the id it is looked up by. *)
Definition lookedUp (env : WaitEnv) (_job : Job + string) : option Job :=
  match _job with
  | inr _ => getJobAt env 0
  | inl j => Some j
  end.

Definition lookupCalls (_job : Job + string) : list WaitCall :=
  match _job with
  | inr jobId => [QueueGetJob jobId]
  | inl _ => []
  end.

Definition refId (_job : Job + string) : string :=
  match _job with
  | inr jobId => jobId
  | inl j => job_id j
  end.

(** [timeout ?? 180000] *)
Definition waitLimit (timeout : option Z) : Z :=
  match timeout with
  | Some t => t
  | None => 180000
  end.

(** The job shows up in the worker queue: the polling loop ends with the
    handle [job], the clock read [k] times, having made [calls]. *)
Definition materialized (env : WaitEnv) (fuel : nat) (_job : Job + string)
    (timeout : option Z) (job : Job) (k : nat) (calls : list WaitCall)
  : Prop :=
  pollJob env fuel 1 (refId _job) (waitLimit timeout) (lookedUp env _job)
  = Some (inl job, k, calls).

(** The job is marked zero-data-retention. *)
Definition zeroRetention (job : Job) : bool :=
  truthyBool (match internalOptions (job_data job) with
              | Some io => io_zeroDataRetention io
              | None => None
              end).

(* ===================================================================== *)
(** ** Explicit inputs *)
(* ===================================================================== *)

Module Examples.
Import Ledger.

Definition adHoc : WebScraperOptions := plain "t" "https://example.com".

Definition batchJob : WebScraperOptions :=
  inCrawl "t" "https://example.com" "b".

Definition crawlJob : WebScraperOptions :=
  inCrawl "t" "https://example.com" "c".

(** Tenant [t] has ceiling 2, two active jobs that have not expired and
    one job waiting in its concurrency queue. *)
Definition saturated : World :=
  {| clock := 1000;
     crawls := [];
     tenants := [("t", (ModeCrawl, {| concurrency := 2 |}))];
     active := [("t", ("a1", 5000)); ("t", ("a2", 5000))];
     crawlActive := [];
     deferred := [("t", (deferredEntry adHoc noOpts "d1" 10, Finite 60000))];
     lastSent := [];
     mirror := false;
     workerQueue := [] |}.

(** Crawl [c] has a maximal concurrency of 2 and one active job; tenant
    [t] has no record and no active job. *)
Definition crawlBusy : World :=
  {| clock := 1000;
     crawls := [("c", {| sc_crawlerOptions := None;
                         sc_maxConcurrency := Some 2 |})];
     tenants := [];
     active := [];
     crawlActive := [("c", ("x", 5000))];
     deferred := [];
     lastSent := [];
     mirror := false;
     workerQueue := [] |}.

(** Crawl [c] has a maximal concurrency of 1 and one active job. *)
Definition crawlFull : World :=
  {| clock := 1000;
     crawls := [("c", {| sc_crawlerOptions := None;
                         sc_maxConcurrency := Some 1 |})];
     tenants := [];
     active := [];
     crawlActive := [("c", ("x", 5000))];
     deferred := [];
     lastSent := [];
     mirror := false;
     workerQueue := [] |}.

(** The record of crawl [c] has a delay and nothing else. *)
Definition delayed : World :=
  {| clock := 1000;
     crawls := [("c", {| sc_crawlerOptions := Some {| delay := Some 5 |};
                         sc_maxConcurrency := None |})];
     tenants := [];
     active := [];
     crawlActive := [];
     deferred := [];
     lastSent := [];
     mirror := false;
     workerQueue := [] |}.

(** Tenant [t] has no record (ceiling 2) and one active job. *)
Definition oneActive : World :=
  {| clock := 1000;
     crawls := [];
     tenants := [];
     active := [("t", ("a1", 5000))];
     crawlActive := [];
     deferred := [];
     lastSent := [];
     mirror := false;
     workerQueue := [] |}.

Definition bulk (o : WebScraperOptions) (jobId : string) : BulkJob :=
  {| data := o; bj_jobId := jobId; bj_priority := 10 |}.

(** Crawl [c] has a maximal concurrency of 1 and no active job; tenant
    [t] has ceiling 3. *)
Definition ceilingThree : World :=
  {| clock := 1000;
     crawls := [("c", {| sc_crawlerOptions := None;
                         sc_maxConcurrency := Some 1 |})];
     tenants := [("t", (ModeCrawl, {| concurrency := 3 |}))];
     active := [];
     crawlActive := [];
     deferred := [];
     lastSent := [];
     mirror := false;
     workerQueue := [] |}.

(** The ids of the jobs pushed to a concurrency queue. *)
Definition deferredJobIds (calls : list Call) : list string :=
  flat_map (fun c => match c with
                     | PushConcurrencyLimitedJob _ e _ => [cq_id e]
                     | _ => []
                     end) calls.

(** The calls of a bulk submission. *)
Definition run (w : World) (jobs : list BulkJob) : list Call :=
  callsOf (addScrapeJobs jobs w).

Definition handle : Job :=
  {| job_id := "j"; job_data := adHoc;
     job_opts := spreadOpts noOpts 10 "j" |}.

(** A payload marked zero-data-retention, and its handle. *)
Definition retained : WebScraperOptions :=
  {| url := "https://example.com"; mode := "single_urls"; team_id := "t";
     crawl_id := None; crawlerOptions := None; scrapeOptions := None;
     internalOptions := Some {| io_zeroDataRetention := Some true;
                                v1Agent := None; v1JSONAgent := None |};
     zeroDataRetention := Some true; is_extract := false;
     from_extract := false; concurrencyLimited := None |}.

Definition retainedHandle : Job :=
  {| job_id := "z"; job_data := retained;
     job_opts := spreadOpts noOpts 10 "z" |}.

Definition ttlText : string := "Job wait timed out before finishing".

(** A clock that advances by 500 ms from one reading to the next. *)
Definition ticks (k : nat) : Z := 500 * Z.of_nat k.

(** The job never shows up in the worker queue. *)
Definition neverQueued : WaitEnv :=
  {| nowAt := ticks; getJobAt := fun _ => None; finish := None;
     ttlMessage := ttlText; getJobFromGCS := fun _ => None |}.

(** The job is in the worker queue and never finishes. *)
Definition neverDone : WaitEnv :=
  {| nowAt := ticks; getJobAt := fun _ => Some handle; finish := None;
     ttlMessage := ttlText; getJobFromGCS := fun _ => None |}.

(** The job finishes at once without an inline document; the blob store
    holds one document for it. *)
Definition outOfBand : WaitEnv :=
  {| nowAt := ticks; getJobAt := fun _ => Some retainedHandle;
     finish := Some (100, Resolved None);
     ttlMessage := ttlText;
     getJobFromGCS := fun _ => Some [{| markdown := "# page" |}] |}.

(** The job fails at once with the serialized form of a transportable
    error. *)
Definition failing : WaitEnv :=
  {| nowAt := ticks; getJobAt := fun _ => Some handle;
     finish := Some (100, Rejected (Generic "SCRAPE_SSL_ERROR|bad certificate"));
     ttlMessage := ttlText; getJobFromGCS := fun _ => None |}.

Definition sslError : TransportableError :=
  {| code := "SCRAPE_SSL_ERROR"; message := "bad certificate"; cause := None |}.

(** A serializer and a deserializer that know of [sslError] alone. *)
Definition serializeOne (e : TransportableError) : string :=
  String.append (code e) (String.append "|" (message e)).

Definition deserializeOne (s : string) : option TransportableError :=
  if String.eqb s "SCRAPE_SSL_ERROR|bad certificate" then Some sslError
  else None.

Definition deserializeNone (s : string) : option TransportableError := None.

End Examples.

(* ===================================================================== *)
(** ** Further observations *)
(* ===================================================================== *)

(** The calls that read a limit or a count for an admission decision. *)
Definition isLimitRead (c : Call) : bool :=
  match c with
  | GetCrawlConcurrencyLimitActiveJobs _
  | GetACUCTeam _ _
  | CleanOldConcurrencyLimitEntries _ _
  | GetConcurrencyLimitActiveJobs _ _
  | GetConcurrencyQueueJobsCount _ => true
  | _ => false
  end.

Definition isCeilingLookup (c : Call) : bool :=
  match c with GetACUCTeam _ _ => true | _ => false end.

Definition isMirror (c : Call) : bool :=
  match c with MirrorToStaging _ => true | _ => false end.

(** A call to the notification service. *)
Definition isNotification (c : Call) : bool :=
  match c with
  | ShouldSendConcurrencyLimitNotification _
  | SendNotificationWithCustomDays _ _ => true
  | _ => false
  end.

(** The tenant a call to the notification service names. *)
Definition notifiedTeam (c : Call) : option string :=
  match c with
  | ShouldSendConcurrencyLimitNotification t
  | SendNotificationWithCustomDays t _ => Some t
  | _ => None
  end.

(** A payload marked zero-data-retention, on either of its two flags. *)
Definition markedZeroRetention (o : WebScraperOptions) : bool :=
  truthyBool (zeroDataRetention o)
  || truthyBool (match internalOptions o with
                 | Some io => io_zeroDataRetention io
                 | None => None
                 end).

(** The reads the selection of a tenant's jobs makes for crawl [cid]. *)
Definition crawlReads {W : Type} {BE : Backend W} (w : W) (cid : string)
  : list Call :=
  GetCrawl cid
  :: match specCrawlCeiling (getCrawl cid w) with
     | Some _ => [GetCrawlConcurrencyLimitActiveJobs cid]
     | None => []
     end.

Definition isBlobCall (c : WaitCall) : bool :=
  match c with
  | GetJobFromGCS _ | RemoveJobFromGCS _ => true
  | _ => false
  end.

Definition isPoll (c : WaitCall) : bool :=
  match c with
  | Sleep _ | QueueGetJob _ => true
  | _ => false
  end.

Definition isSleep (c : WaitCall) : bool :=
  match c with Sleep _ => true | _ => false end.

Module MoreExamples.
Import Ledger.

(** Tenant [t] has ceiling 0 and nothing active. *)
Definition closed : World :=
  {| clock := 1000;
     crawls := [];
     tenants := [("t", (ModeCrawl, {| concurrency := 0 |}))];
     active := [];
     crawlActive := [];
     deferred := [];
     lastSent := [];
     mirror := true;
     workerQueue := [] |}.

(** The job is in the worker queue from the first poll on, 500 ms after
    the start. *)
Definition lateQueued : WaitEnv :=
  {| nowAt := Examples.ticks;
     getJobAt := fun k => match k with
                          | O => None
                          | S _ => Some Examples.handle
                          end;
     finish := Some (100, Resolved (Some {| markdown := "# page" |}));
     ttlMessage := Examples.ttlText;
     getJobFromGCS := fun _ => None |}.


End MoreExamples.

(* ===================================================================== *)
(** ** Facts about the single-job path *)
(* ===================================================================== *)

Lemma crawlConcurrencyLimit_spec (crawl : option StoredCrawl) :
  crawlConcurrencyLimit crawl = specCrawlCeiling crawl.
Proof.
  destruct crawl as [c|]; [|reflexivity].
  unfold crawlConcurrencyLimit, specCrawlCeiling.
  destruct (sc_maxConcurrency c), (crawlDelay c); reflexivity.
Qed.

Lemma nullish_tenantCeiling (acuc : option ACUC) :
  nullish (option_map concurrency acuc) 2 = tenantCeiling acuc.
Proof. destruct acuc; reflexivity. Qed.

Lemma holdMs_cases (o : WebScraperOptions) :
  holdMs o = match truthyId (crawl_id o) with
             | Some _ => Infinity
             | None => Finite (scrapeTimeout o)
             end.
Proof.
  unfold holdMs, scrapeTimeout.
  destruct (truthyId (crawl_id o)); [reflexivity|].
  destruct (scrapeOptions o) as [so|]; [|reflexivity].
  destruct (timeout so); reflexivity.
Qed.


Section SingleJob.
Context {W : Type} {BE : Backend W}.
Implicit Types (w : W) (o : WebScraperOptions).

Lemma crawlGate_store w o : storeOf (crawlGate o w) = w.
Proof.
  unfold crawlGate.
  destruct (truthyId (crawl_id o)) as [cid|]; [|reflexivity].
  unfold bind, readCall; simpl.
  destruct (crawlConcurrencyLimit (getCrawl cid w)) as [c|]; [|reflexivity].
  simpl.
  destruct (freeSlotsOf c _ =? 0); reflexivity.
Qed.

Lemma crawlGate_value w o :
  valueOf (crawlGate o w) =
  match truthyId (crawl_id o) with
  | Some cid =>
      match crawlFree w cid with
      | Some free => if free =? 0 then Some YesCrawl else None
      | None => None
      end
  | None => None
  end.
Proof.
  unfold crawlGate, crawlFree.
  destruct (truthyId (crawl_id o)) as [cid|]; [|reflexivity].
  unfold bind, readCall; simpl.
  rewrite <- crawlConcurrencyLimit_spec.
  destruct (crawlConcurrencyLimit (getCrawl cid w)) as [c|]; [|reflexivity].
  simpl. unfold freeSlotsOf.
  destruct (Z.max _ 0 =? 0); reflexivity.
Qed.

Lemma crawlGate_calls_reads w o :
  forall c, In c (callsOf (crawlGate o w)) ->
            (exists cid, c = GetCrawl cid)
            \/ (exists cid, c = GetCrawlConcurrencyLimitActiveJobs cid).
Proof.
  unfold crawlGate.
  destruct (truthyId (crawl_id o)) as [cid|]; [|intros c []].
  unfold bind, readCall; simpl.
  destruct (crawlConcurrencyLimit (getCrawl cid w)) as [k|]; simpl.
  - destruct (freeSlotsOf k _ =? 0); simpl;
      intros c [<-|[<-|[]]]; eauto.
  - intros c [<-|[]]; eauto.
Qed.

(** The tenant gate, run: the calls it makes, the store it leaves and its
    verdict. *)
Lemma tenantGate_run w o :
  let team := team_id o in
  let now := dateNow w in
  let ceiling := tenantCeiling (getACUCTeam team (gateMode o) w) in
  let w' := cleanOldConcurrencyLimitEntries team now w in
  let count := len (getConcurrencyLimitActiveJobs team now w') in
  tenantGate o w =
  (if count >=? ceiling then Yes else No, w',
   [GetACUCTeam team (gateMode o);
    CleanOldConcurrencyLimitEntries team now;
    GetConcurrencyLimitActiveJobs team now]).
Proof.
  unfold tenantGate, bind, readCall, writeCall, peek, ret, gateMode; simpl.
  rewrite nullish_tenantCeiling. reflexivity.
Qed.

Lemma admissionVerdict_run w o :
  admissionVerdict o false w =
  match valueOf (crawlGate o w) with
  | None => (valueOf (tenantGate o w), storeOf (tenantGate o w),
             callsOf (crawlGate o w) ++ callsOf (tenantGate o w))
  | Some v => (v, w, callsOf (crawlGate o w) ++ [])
  end.
Proof.
  unfold admissionVerdict, bind.
  pose proof (crawlGate_store w o) as Hs.
  destruct (crawlGate o w) as [[v w1] t1].
  unfold storeOf, valueOf, callsOf in *; simpl in *; subst w1.
  destruct v as [v|]; simpl.
  - reflexivity.
  - destruct (tenantGate o w) as [[v2 w2] t2]; reflexivity.
Qed.

Lemma addToBullMQ_run w o options jobId p :
  valueOf (_addScrapeJobToBullMQ o options jobId p w)
  = {| job_id := jobId; job_data := o;
       job_opts := spreadOpts options p jobId |}
  /\ callsOf (_addScrapeJobToBullMQ o options jobId p w)
     = (if mirrorEligible o && mirrorDraw w
        then [MirrorToStaging (url o)] else [])
       ++ slotCalls w o jobId
       ++ [QueueAdd jobId o (spreadOpts options p jobId)].
Proof.
  unfold _addScrapeJobToBullMQ, slotCalls, jobDelay, recordMaxConcurrency,
    bind, readCall, writeCall, peek, ret, valueOf, callsOf.
  change (60 * 1000) with 60000.
  destruct (mirrorEligible o && mirrorDraw w); simpl;
    destruct (truthyString (team_id o)); simpl; auto;
    destruct (truthyId (crawl_id o)) as [cid|]; simpl; auto;
    match goal with |- context [truthyNumber ?a || truthyNumber ?b] =>
      destruct (truthyNumber a || truthyNumber b) end; simpl; auto.
Qed.

Lemma addToCQ_run w o options jobId p :
  _addScrapeJobToConcurrencyQueue o options jobId p w
  = (tt,
     pushConcurrencyLimitedJob (team_id o)
       (deferredEntry o options jobId p) (holdMs o) w,
     [PushConcurrencyLimitedJob (team_id o)
        (deferredEntry o options jobId p) (holdMs o)]).
Proof. reflexivity. Qed.

(** The calls of the notification block of the single-job path, for the
    bound [m] it compares with. *)
Lemma notifySingle_calls w o m :
  callsOf (notifySingle m o w) =
  GetConcurrencyQueueJobsCount (team_id o)
  :: (if getConcurrencyQueueJobsCount (team_id o) w >? m
      then ShouldSendConcurrencyLimitNotification (team_id o)
           :: (if shouldSendConcurrencyLimitNotification (team_id o) w
               then [SendNotificationWithCustomDays (team_id o) 15]
               else [])
      else []).
Proof.
  unfold notifySingle, bind, readCall, writeCall, ret, callsOf; simpl.
  destruct (_ >? m); simpl; auto.
  destruct (shouldSendConcurrencyLimitNotification _ w); reflexivity.
Qed.

Lemma beforeDefer_quiet v w o :
  filter isDispatch (callsOf (beforeDefer v o w)) = []
  /\ filter isPushDeferred (callsOf (beforeDefer v o w)) = [].
Proof.
  destruct v; simpl; auto.
  rewrite notifySingle_calls; simpl.
  destruct (_ >? 0); simpl; auto.
  destruct (shouldSendConcurrencyLimitNotification _ w); simpl; auto.
Qed.

(** [addScrapeJobRaw] by the cases of its verdict. *)
Lemma addScrapeJobRaw_run w o options jobId p direct :
  let v := valueOf (admissionVerdict o direct w) in
  let w1 := storeOf (admissionVerdict o direct w) in
  let t1 := callsOf (admissionVerdict o direct w) in
  addScrapeJobRaw o options jobId p direct w =
  match v with
  | No =>
      ((Some (valueOf (_addScrapeJobToBullMQ o options jobId p w1)), o),
       storeOf (_addScrapeJobToBullMQ o options jobId p w1),
       t1 ++ callsOf (_addScrapeJobToBullMQ o options jobId p w1))
  | _ =>
      let o' := setConcurrencyLimited o in
      ((None, o'),
       pushConcurrencyLimitedJob (team_id o)
         (deferredEntry o' options jobId p) (holdMs o)
         (storeOf (beforeDefer v o w1)),
       t1 ++ callsOf (beforeDefer v o w1)
          ++ [PushConcurrencyLimitedJob (team_id o)
                (deferredEntry o' options jobId p) (holdMs o)])
  end.
Proof.
  intros v w1 t1; subst v w1 t1.
  unfold addScrapeJobRaw, bind at 1.
  destruct (admissionVerdict o direct w) as [[v w1] t1].
  unfold valueOf, storeOf, callsOf; simpl.
  destruct v; simpl.
  - unfold bind.
    destruct (notifySingle 0 o w1) as [[u w2] t2]; simpl.
    reflexivity.
  - reflexivity.
  - unfold bind.
    destruct (_addScrapeJobToBullMQ o options jobId p w1) as [[j w2] t2];
      simpl.
    unfold ret. rewrite app_nil_r. reflexivity.
Qed.

(** The verdict makes no call that takes a slot or defers. *)
Lemma admissionVerdict_quiet w o direct :
  filter isDispatch (callsOf (admissionVerdict o direct w)) = []
  /\ filter isPushDeferred (callsOf (admissionVerdict o direct w)) = [].
Proof.
  destruct direct; [split; reflexivity|].
  rewrite admissionVerdict_run.
  assert (Hg : filter isDispatch (callsOf (crawlGate o w)) = []
               /\ filter isPushDeferred (callsOf (crawlGate o w)) = []).
  { pose proof (crawlGate_calls_reads w o) as Hr.
    induction (callsOf (crawlGate o w)) as [|c t IH]; [split; reflexivity|].
    destruct IH as [IH1 IH2]; [intros; apply Hr; right; assumption|].
    destruct (Hr c (or_introl eq_refl)) as [[cid ->]|[cid ->]];
      simpl; auto. }
  destruct Hg as [Hg1 Hg2].
  rewrite tenantGate_run.
  remember (callsOf (crawlGate o w)) as cg.
  destruct (valueOf (crawlGate o w)); unfold callsOf; simpl;
    rewrite !filter_app, Hg1, Hg2; split; reflexivity.
Qed.

(** The verdict of a job that is not sent direct to the worker queue. *)
Lemma admissionVerdict_value w o :
  valueOf (admissionVerdict o false w) =
  match valueOf (crawlGate o w) with
  | Some v => v
  | None =>
      let team := team_id o in
      let now := dateNow w in
      if len (getConcurrencyLimitActiveJobs team now
                (cleanOldConcurrencyLimitEntries team now w))
         >=? tenantCeiling (getACUCTeam team (gateMode o) w)
      then Yes else No
  end.
Proof.
  rewrite admissionVerdict_run.
  destruct (valueOf (crawlGate o w)); [reflexivity|].
  rewrite tenantGate_run. reflexivity.
Qed.

End SingleJob.

(* ===================================================================== *)
(** ** The single-job path: the claims *)
(* ===================================================================== *)

(** C2.  A single job that the crawl gate lets pass and that is not sent
    direct to the worker queue: admission asks for the tenant's ceiling
    (mode extract when [is_extract] is set, mode crawl otherwise, 2 when
    the tenant has no record), calls clean-expired for the tenant and then
    counts its active entries; the job is deferred for the tenant limit if
    and only if the count is at least the ceiling, and let through
    otherwise. *)
Theorem tenant_gate_single {W : Type} {BE : Backend W}
    (w : W) (o : WebScraperOptions) (options : JobOpts) (jobId : string)
    (p : Z) :
  valueOf (crawlGate o w) = None ->
  let team := team_id o in
  let now := dateNow w in
  let m := if is_extract o then ModeExtract else ModeCrawl in
  let ceiling := match getACUCTeam team m w with
                 | Some a => concurrency a
                 | None => 2
                 end in
  let count := len (getConcurrencyLimitActiveJobs team now
                      (cleanOldConcurrencyLimitEntries team now w)) in
  callsOf (admissionVerdict o false w)
  = callsOf (crawlGate o w)
    ++ [GetACUCTeam team m;
        CleanOldConcurrencyLimitEntries team now;
        GetConcurrencyLimitActiveJobs team now]
  /\ (valueOf (admissionVerdict o false w) = Yes <-> ceiling <= count)
  /\ (valueOf (admissionVerdict o false w) = No <-> count < ceiling)
  /\ (fst (valueOf (addScrapeJobRaw o options jobId p false w)) = None
      <-> ceiling <= count).
Proof.
  intros Hgate team now m ceiling count.
  assert (Hv : valueOf (admissionVerdict o false w)
               = if count >=? ceiling then Yes else No).
  { rewrite admissionVerdict_value, Hgate. reflexivity. }
  assert (Hc : callsOf (admissionVerdict o false w)
               = callsOf (crawlGate o w)
                 ++ [GetACUCTeam team m;
                     CleanOldConcurrencyLimitEntries team now;
                     GetConcurrencyLimitActiveJobs team now]).
  { rewrite admissionVerdict_run, Hgate, tenantGate_run. reflexivity. }
  split; [exact Hc|].
  pose proof (addScrapeJobRaw_run w o options jobId p false) as Hrun.
  cbv zeta in Hrun. rewrite Hrun, Hv.
  destruct (Z.geb_spec count ceiling) as [Hge|Hlt]; simpl.
  - repeat split; intros; try lia; try discriminate; reflexivity.
  - repeat split; intros; try lia; try discriminate; reflexivity.
Qed.

Lemma tenant_gate_single_witness :
  valueOf (crawlGate Examples.adHoc Examples.saturated) = None
  /\ valueOf (admissionVerdict Examples.adHoc false Examples.saturated) = Yes
  /\ fst (valueOf (addScrapeJobRaw Examples.adHoc Ledger.noOpts "j" 10 false
                                   Examples.saturated)) = None.
Proof.
  assert (H : valueOf (crawlGate Examples.adHoc Examples.saturated) = None)
    by reflexivity.
  destruct (tenant_gate_single Examples.saturated Examples.adHoc
              Ledger.noOpts "j" 10 H) as (_ & Hyes & _ & Hnull).
  split; [exact H|].
  split; [apply Hyes | apply Hnull]; vm_compute; discriminate.
Defined.





(** C6, amended.  Every job let through ends with one enqueue on the worker
    queue.  Before it, a job whose [team_id] is not empty makes exactly one
    push-active for its tenant with a TTL of 60 000 ms, and a job whose
    [team_id] is empty makes none; the job makes exactly one
    crawl-push-active, with a TTL of 60 000 ms, if and only if its
    [team_id] and its [crawl_id] are not empty and either the [delay] of
    the [crawlerOptions] of its own payload or the [maxConcurrency] of the
    crawl record is set and not zero. *)
Theorem enqueue_pushes {W : Type} {BE : Backend W}
    (w : W) (o : WebScraperOptions) (options : JobOpts) (jobId : string)
    (p : Z) :
  let calls := callsOf (_addScrapeJobToBullMQ o options jobId p w) in
  let w1 := pushConcurrencyLimitActiveJob (team_id o) jobId 60000 w in
  exists before,
    calls = before ++ [QueueAdd jobId o (spreadOpts options p jobId)]
    /\ filter isQueueAdd before = []
    /\ filter isPushActive before
       = (if truthyString (team_id o)
          then [PushConcurrencyLimitActiveJob (team_id o) jobId 60000]
          else [])
    /\ filter isCrawlPushActive before
       = match truthyId (crawl_id o) with
         | Some cid =>
             if truthyString (team_id o)
                && (truthyNumber (jobDelay o)
                    || truthyNumber (recordMaxConcurrency (getCrawl cid w1)))
             then [PushCrawlConcurrencyLimitActiveJob cid jobId 60000]
             else []
         | None => []
         end.
Proof.
  intros calls w1; subst calls w1.
  destruct (addToBullMQ_run w o options jobId p) as [_ ->].
  eexists. split; [rewrite app_assoc; reflexivity|].
  unfold slotCalls.
  rewrite !filter_app.
  destruct (mirrorEligible o && mirrorDraw w);
    destruct (truthyString (team_id o));
    destruct (truthyId (crawl_id o)) as [cid|]; simpl; auto;
    destruct (truthyNumber (jobDelay o) || _); simpl; auto.
Qed.

(** C6 as it is stated fails: a job with an empty [team_id] is enqueued
    with no push-active, and a job of a crawl whose record has a delay,
    but whose own payload has none, is enqueued with no
    crawl-push-active. *)
Lemma enqueue_pushes_counterexample :
  ~ slotPushesAsStated Ledger.empty (Ledger.plain EmptyString "u")
      Ledger.noOpts "j" 10
  /\ ~ slotPushesAsStated Examples.delayed Examples.crawlJob
         Ledger.noOpts "j" 10.
Proof.
  split; intros [H1 H2]; vm_compute in H1, H2; discriminate.
Qed.

(** On the single-job path the notification gate is entered exactly when
    the verdict is to defer for the tenant limit and the concurrency queue
    of the tenant is not empty: the bound is the function-level
    [maxConcurrency], which is 0, and no test of the kind of submission is
    made. *)
Lemma single_notification_gate {W : Type} {BE : Backend W}
    (w : W) (o : WebScraperOptions) (options : JobOpts) (jobId : string)
    (p : Z) (direct : bool) :
  let v := valueOf (admissionVerdict o direct w) in
  let w1 := storeOf (admissionVerdict o direct w) in
  filter isNotificationGate
    (callsOf (addScrapeJobRaw o options jobId p direct w))
  = filter isNotificationGate (callsOf (admissionVerdict o direct w))
    ++ match v with
       | Yes =>
           if getConcurrencyQueueJobsCount (team_id o) w1 >? 0
           then [ShouldSendConcurrencyLimitNotification (team_id o)]
           else []
       | _ => []
       end.
Proof.
  intros v w1; subst v w1.
  pose proof (addScrapeJobRaw_run w o options jobId p direct) as Hrun.
  cbv zeta in Hrun. rewrite Hrun. clear Hrun.
  destruct (valueOf (admissionVerdict o direct w));
    unfold callsOf; cbn [fst snd]; rewrite !filter_app.
  - f_equal. fold (callsOf (beforeDefer Yes o
                              (storeOf (admissionVerdict o direct w)))).
    unfold beforeDefer. rewrite notifySingle_calls. simpl.
    destruct (_ >? 0); simpl; [|reflexivity].
    destruct (shouldSendConcurrencyLimitNotification _ _); reflexivity.
  - reflexivity.
  - f_equal.
    fold (callsOf (_addScrapeJobToBullMQ o options jobId p
                     (storeOf (admissionVerdict o direct w)))).
    destruct (addToBullMQ_run (storeOf (admissionVerdict o direct w))
                o options jobId p) as [_ ->].
    unfold slotCalls. rewrite !filter_app.
    destruct (mirrorEligible o && mirrorDraw _);
      destruct (truthyString (team_id o));
      destruct (truthyId (crawl_id o)) as [cid|]; simpl; auto;
      destruct (truthyNumber (jobDelay o) || _); simpl; auto.
Qed.

(** C4, the code at the failing inputs.  Tenant [t] has ceiling 2, two
    active jobs and one job in its concurrency queue.  An ad-hoc job is
    deferred for the tenant limit and the notification gate is entered,
    although the backlog, 1, does not exceed the ceiling; a job of a batch
    scrape is deferred for the tenant limit and the gate is entered,
    although the submission is a batch scrape. *)
Theorem single_notification_ignores_ceiling :
  let w := Examples.saturated in
  valueOf (admissionVerdict Examples.adHoc false w) = Yes
  /\ getConcurrencyQueueJobsCount "t" w = 1
  /\ tenantCeiling (getACUCTeam "t" ModeCrawl w) = 2
  /\ filter isNotificationGate
       (callsOf (addScrapeJobRaw Examples.adHoc Ledger.noOpts "j" 10 false w))
     = [ShouldSendConcurrencyLimitNotification "t"]
  /\ valueOf (admissionVerdict Examples.batchJob false w) = Yes
  /\ isCrawlOrBatchScrape Examples.batchJob = true
  /\ filter isNotificationGate
       (callsOf (addScrapeJobRaw Examples.batchJob Ledger.noOpts "j" 10 false
                                 w))
     = [ShouldSendConcurrencyLimitNotification "t"].
Proof. vm_compute. repeat split. Qed.

(* ===================================================================== *)
(** ** Facts about the bulk path *)
(* ===================================================================== *)

Section MonadFacts.
Context {W : Type}.

Lemma valueOf_bind {A B : Type} (c : M W A) (k : A -> M W B) (w : W) :
  valueOf (bind c k w) = valueOf (k (valueOf (c w)) (storeOf (c w))).
Proof.
  unfold bind, valueOf, storeOf.
  destruct (c w) as [[a w1] t1]; simpl.
  destruct (k a w1) as [[b w2] t2]; reflexivity.
Qed.

Lemma storeOf_bind {A B : Type} (c : M W A) (k : A -> M W B) (w : W) :
  storeOf (bind c k w) = storeOf (k (valueOf (c w)) (storeOf (c w))).
Proof.
  unfold bind, valueOf, storeOf.
  destruct (c w) as [[a w1] t1]; simpl.
  destruct (k a w1) as [[b w2] t2]; reflexivity.
Qed.

Lemma callsOf_bind {A B : Type} (c : M W A) (k : A -> M W B) (w : W) :
  callsOf (bind c k w)
  = callsOf (c w) ++ callsOf (k (valueOf (c w)) (storeOf (c w))).
Proof.
  unfold bind, valueOf, storeOf, callsOf.
  destruct (c w) as [[a w1] t1]; simpl.
  destruct (k a w1) as [[b w2] t2]; reflexivity.
Qed.

(** A loop whose every turn makes calls [g x] under the filter [f] makes
    the calls of its turns, in order. *)
Lemma forEach_filter {A : Type} (f : Call -> bool) (body : A -> M W unit)
    (g : A -> list Call) :
  (forall x w, filter f (callsOf (body x w)) = g x) ->
  forall xs w, filter f (callsOf (forEach body xs w)) = flat_map g xs.
Proof.
  intros Hbody xs; induction xs as [|x xs IH]; intros w; [reflexivity|].
  simpl forEach. rewrite callsOf_bind, filter_app, Hbody, IH. reflexivity.
Qed.

Lemma callsOf_peek {A B : Type} (f : W -> A) (k : A -> M W B) (w : W) :
  callsOf (bind (peek f) k w) = callsOf (k (f w) w).
Proof. rewrite callsOf_bind. reflexivity. Qed.

Lemma callsOf_read {A B : Type} (c : Call) (f : W -> A) (k : A -> M W B)
    (w : W) :
  callsOf (bind (readCall c f) k w) = c :: callsOf (k (f w) w).
Proof. rewrite callsOf_bind. reflexivity. Qed.

Lemma callsOf_write {B : Type} (c : Call) (f : W -> W) (k : unit -> M W B)
    (w : W) :
  callsOf (bind (writeCall c f) k w) = c :: callsOf (k tt (f w)).
Proof. rewrite callsOf_bind. reflexivity. Qed.

End MonadFacts.

Lemma flat_map_singleton {A B : Type} (f : A -> B) (xs : list A) :
  flat_map (fun x => [f x]) xs = map f xs.
Proof. induction xs as [|x xs IH]; simpl; congruence. Qed.

Lemma flat_map_nil {A B : Type} (xs : list A) :
  flat_map (fun _ : A => @nil B) xs = [].
Proof. induction xs as [|x xs IH]; simpl; auto. Qed.

Section BulkFacts.
Context {W : Type} {BE : Backend W}.
Implicit Types (w : W) (b : Buckets).

Lemma selectCrawlBucket_run w b (bucket : string * list BulkJob) :
  valueOf (selectCrawlBucket b bucket w)
  = {| jobsForcedToCQ := jobsForcedToCQ b ++ forcedPart w bucket;
       jobsPotentiallyInCQ := jobsPotentiallyInCQ b ++ admissiblePart w bucket |}
  /\ storeOf (selectCrawlBucket b bucket w) = w
  /\ filter isDispatch (callsOf (selectCrawlBucket b bucket w)) = []
  /\ filter isPushDeferred (callsOf (selectCrawlBucket b bucket w)) = []
  /\ filter isNotificationGate (callsOf (selectCrawlBucket b bucket w)) = [].
Proof.
  unfold selectCrawlBucket, forcedPart, admissiblePart, crawlFree.
  rewrite <- crawlConcurrencyLimit_spec.
  unfold bind, readCall, ret, valueOf, storeOf, callsOf; simpl.
  destruct (crawlConcurrencyLimit (getCrawl (fst bucket) w)) as [c|]; simpl.
  - repeat split.
  - rewrite app_nil_r. repeat split.
Qed.

Lemma selectCrawlBuckets_run w (buckets : list (string * list BulkJob)) :
  forall b,
    valueOf (selectCrawlBuckets b buckets w)
    = {| jobsForcedToCQ := jobsForcedToCQ b ++ flat_map (forcedPart w) buckets;
         jobsPotentiallyInCQ :=
           jobsPotentiallyInCQ b ++ flat_map (admissiblePart w) buckets |}
    /\ storeOf (selectCrawlBuckets b buckets w) = w
    /\ filter isDispatch (callsOf (selectCrawlBuckets b buckets w)) = []
    /\ filter isPushDeferred (callsOf (selectCrawlBuckets b buckets w)) = []
    /\ filter isNotificationGate
         (callsOf (selectCrawlBuckets b buckets w)) = [].
Proof.
  induction buckets as [|bucket rest IH]; intros b.
  - simpl. rewrite !app_nil_r. destruct b; repeat split.
  - simpl selectCrawlBuckets.
    rewrite valueOf_bind, storeOf_bind, callsOf_bind, !filter_app.
    destruct (selectCrawlBucket_run w b bucket) as (-> & -> & -> & -> & ->).
    destruct (IH {| jobsForcedToCQ := jobsForcedToCQ b ++ forcedPart w bucket;
                    jobsPotentiallyInCQ :=
                      jobsPotentiallyInCQ b ++ admissiblePart w bucket |})
      as (-> & -> & -> & -> & ->).
    simpl. rewrite <- !app_assoc. repeat split.
Qed.

Lemma selectJobs_run w (teamJobs : list BulkJob) :
  valueOf (selectJobs teamJobs w)
  = {| jobsForcedToCQ :=
         flat_map (forcedPart w) (fst (splitByCrawl teamJobs));
       jobsPotentiallyInCQ :=
         flat_map (admissiblePart w) (fst (splitByCrawl teamJobs))
         ++ snd (splitByCrawl teamJobs) |}
  /\ storeOf (selectJobs teamJobs w) = w
  /\ filter isDispatch (callsOf (selectJobs teamJobs w)) = []
  /\ filter isPushDeferred (callsOf (selectJobs teamJobs w)) = []
  /\ filter isNotificationGate (callsOf (selectJobs teamJobs w)) = [].
Proof.
  unfold selectJobs.
  rewrite valueOf_bind, storeOf_bind, callsOf_bind, !filter_app.
  destruct (selectCrawlBuckets_run w (fst (splitByCrawl teamJobs))
              {| jobsForcedToCQ := []; jobsPotentiallyInCQ := [] |})
    as (-> & -> & -> & -> & ->).
  simpl. repeat split.
Qed.

Lemma notifyBulk_run w (first : WebScraperOptions) (backlog m : Z) :
  filter isDispatch (callsOf (notifyBulk first backlog m w)) = []
  /\ filter isPushDeferred (callsOf (notifyBulk first backlog m w)) = []
  /\ filter isNotificationGate (callsOf (notifyBulk first backlog m w))
     = (if (backlog >? m) && negb (isCrawlOrBatchScrape first)
        then [ShouldSendConcurrencyLimitNotification (team_id first)]
        else []).
Proof.
  unfold notifyBulk.
  destruct (backlog >? m); simpl; [|repeat split].
  destruct (isCrawlOrBatchScrape first); simpl; [repeat split|].
  unfold bind, readCall, writeCall, ret, callsOf; simpl.
  destruct (shouldSendConcurrencyLimitNotification _ w); repeat split.
Qed.

Lemma deferAll_run (js : list BulkJob) w :
  filter isPushDeferred
    (callsOf (forEach (fun job =>
                         _addScrapeJobToConcurrencyQueue
                           (data job) (opts job) (bj_jobId job)
                           (bj_priority job)) js w))
  = map deferOf js
  /\ filter isDispatch
       (callsOf (forEach (fun job =>
                            _addScrapeJobToConcurrencyQueue
                              (data job) (opts job) (bj_jobId job)
                              (bj_priority job)) js w))
     = []
  /\ filter isNotificationGate
       (callsOf (forEach (fun job =>
                            _addScrapeJobToConcurrencyQueue
                              (data job) (opts job) (bj_jobId job)
                              (bj_priority job)) js w))
     = [].
Proof.
  split; [|split].
  - rewrite (forEach_filter isPushDeferred _ (fun j => [deferOf j])).
    + apply flat_map_singleton.
    + intros x w'. reflexivity.
  - rewrite (forEach_filter isDispatch _ (fun _ => [])).
    + apply flat_map_nil.
    + intros x w'. reflexivity.
  - rewrite (forEach_filter isNotificationGate _ (fun _ => [])).
    + apply flat_map_nil.
    + intros x w'. reflexivity.
Qed.

Lemma enqueueOne_filters w (o : WebScraperOptions) (options : JobOpts)
    (jobId : string) (p : Z) :
  let calls := callsOf (_addScrapeJobToBullMQ o options jobId p w) in
  filter isQueueAdd calls = [QueueAdd jobId o (spreadOpts options p jobId)]
  /\ filter isPushDeferred calls = []
  /\ filter isNotificationGate calls = [].
Proof.
  intros calls; subst calls.
  destruct (addToBullMQ_run w o options jobId p) as [_ ->].
  unfold slotCalls. rewrite !filter_app.
  destruct (mirrorEligible o && mirrorDraw w);
    destruct (truthyString (team_id o));
    destruct (truthyId (crawl_id o)) as [cid|]; simpl; auto;
    destruct (truthyNumber (jobDelay o) || _); simpl; auto.
Qed.

Lemma enqueueAll_run (js : list BulkJob) w :
  let loop :=
    forEach (fun job =>
               _addScrapeJobToBullMQ (data job) (opts job) (bj_jobId job)
                                     (bj_priority job) ;;;
               ret tt) js w in
  filter isQueueAdd (callsOf loop) = map enqueueOf js
  /\ filter isPushDeferred (callsOf loop) = []
  /\ filter isNotificationGate (callsOf loop) = [].
Proof.
  intros loop; subst loop.
  assert (Hb : forall (f : Call -> bool) (x : BulkJob) (w' : W),
             filter f
               (callsOf ((_addScrapeJobToBullMQ (data x) (opts x) (bj_jobId x)
                                                (bj_priority x) ;;;
                          ret tt) w'))
             = filter f
                 (callsOf (_addScrapeJobToBullMQ (data x) (opts x)
                             (bj_jobId x) (bj_priority x) w'))).
  { intros f x w'. rewrite callsOf_bind. unfold ret at 1, callsOf at 3.
    simpl. rewrite app_nil_r. reflexivity. }
  split; [|split].
  - rewrite (forEach_filter isQueueAdd _ (fun j => [enqueueOf j])).
    + apply flat_map_singleton.
    + intros x w'. rewrite Hb. apply enqueueOne_filters.
  - rewrite (forEach_filter isPushDeferred _ (fun _ => [])).
    + apply flat_map_nil.
    + intros x w'. rewrite Hb. apply enqueueOne_filters.
  - rewrite (forEach_filter isNotificationGate _ (fun _ => [])).
    + apply flat_map_nil.
    + intros x w'. rewrite Hb. apply enqueueOne_filters.
Qed.

End BulkFacts.

Section Grouping.

Lemma existsb_eqb_In (k : string) (ks : list string) :
  existsb (String.eqb k) ks = true <-> In k ks.
Proof.
  rewrite existsb_exists. split.
  - intros (x & Hin & Heq). apply String.eqb_eq in Heq. subst. exact Hin.
  - intros Hin. exists k. split; [exact Hin | apply String.eqb_refl].
Qed.

Lemma firstOccurrences_snoc (ks : list string) (k : string) :
  firstOccurrences (ks ++ [k])
  = if existsb (String.eqb k) (firstOccurrences ks)
    then firstOccurrences ks
    else firstOccurrences ks ++ [k].
Proof. unfold firstOccurrences. rewrite fold_left_app. reflexivity. Qed.

Lemma firstOccurrences_In (ks : list string) (k : string) :
  In k (firstOccurrences ks) <-> In k ks.
Proof.
  induction ks as [|x ks IH] using rev_ind; [reflexivity|].
  rewrite firstOccurrences_snoc, in_app_iff.
  destruct (existsb (String.eqb x) (firstOccurrences ks)) eqn:E.
  - apply existsb_eqb_In in E. simpl. split.
    + intros H. left. apply IH. exact H.
    + intros [H|[<-|[]]]; [apply IH; exact H | exact E].
  - rewrite in_app_iff, IH. reflexivity.
Qed.

Lemma firstOccurrences_NoDup (ks : list string) : NoDup (firstOccurrences ks).
Proof.
  induction ks as [|x ks IH] using rev_ind; [constructor|].
  rewrite firstOccurrences_snoc.
  destruct (existsb (String.eqb x) (firstOccurrences ks)) eqn:E; [exact IH|].
  apply NoDup_app; [exact IH | repeat constructor; intros [] |].
  intros k Hk [<-|[]].
  apply existsb_eqb_In in Hk. congruence.
Qed.

(** [mapPush] on a map with distinct keys. *)
Lemma mapPush_keyed {A : Type} (f : string -> list A) (c : string) (x : A)
    (ks : list string) :
  NoDup ks ->
  mapPush c x (map (fun k => (k, f k)) ks)
  = if existsb (String.eqb c) ks
    then map (fun k => (k, if String.eqb c k then f k ++ [x] else f k)) ks
    else map (fun k => (k, f k)) ks ++ [(c, [x])].
Proof.
  induction ks as [|k ks IH]; intros Hnd; [reflexivity|].
  inversion Hnd as [|? ? Hnotin Hnd']; subst.
  simpl. destruct (String.eqb c k) eqn:E; simpl.
  - apply String.eqb_eq in E. subst k. f_equal.
    apply map_ext_in. intros k Hk.
    destruct (String.eqb c k) eqn:E'; [|reflexivity].
    apply String.eqb_eq in E'. subst. contradiction.
  - rewrite (IH Hnd'). destruct (existsb (String.eqb c) ks); reflexivity.
Qed.

Lemma splitByCrawl_snoc (l : list BulkJob) (x : BulkJob) :
  splitByCrawl (l ++ [x])
  = match crawlOf x with
    | Some c => (mapPush c x (fst (splitByCrawl l)), snd (splitByCrawl l))
    | None => (fst (splitByCrawl l), snd (splitByCrawl l) ++ [x])
    end.
Proof. unfold splitByCrawl, crawlOf. rewrite fold_left_app. reflexivity. Qed.

Lemma crawlIds_snoc (l : list BulkJob) (x : BulkJob) :
  crawlIds (l ++ [x])
  = crawlIds l ++ match crawlOf x with Some c => [c] | None => [] end.
Proof. unfold crawlIds. rewrite flat_map_app. simpl. rewrite app_nil_r. reflexivity. Qed.

Lemma inCrawlB_absent (c : string) (l : list BulkJob) :
  ~ In c (crawlIds l) -> filter (inCrawlB c) l = [].
Proof.
  induction l as [|x l IH]; [reflexivity|].
  unfold crawlIds; simpl. fold (crawlIds l). rewrite in_app_iff.
  intros Hn. unfold inCrawlB at 1.
  destruct (crawlOf x) as [c'|].
  - destruct (String.eqb c c') eqn:E.
    + apply String.eqb_eq in E. subst. exfalso. apply Hn. left. left.
      reflexivity.
    + apply IH. intros H. apply Hn. right. exact H.
  - apply IH. intros H. apply Hn. right. exact H.
Qed.

Lemma inCrawlB_single (k : string) (x : BulkJob) :
  filter (inCrawlB k) [x]
  = match crawlOf x with
    | Some c => if String.eqb k c then [x] else []
    | None => []
    end.
Proof.
  simpl. unfold inCrawlB. destruct (crawlOf x) as [c|]; [|reflexivity].
  destruct (String.eqb k c); reflexivity.
Qed.

Lemma noCrawlB_single (x : BulkJob) :
  filter noCrawlB [x]
  = match crawlOf x with Some _ => [] | None => [x] end.
Proof. simpl. unfold noCrawlB. destruct (crawlOf x); reflexivity. Qed.

(** The buckets of lines 270-279: the crawls in order of first
    occurrence, each with its jobs in input order, and the jobs without a
    crawl in input order. *)
Lemma splitByCrawl_spec (l : list BulkJob) :
  fst (splitByCrawl l)
  = map (fun cid => (cid, filter (inCrawlB cid) l))
        (firstOccurrences (crawlIds l))
  /\ snd (splitByCrawl l) = filter noCrawlB l.
Proof.
  induction l as [|x l [IH1 IH2]] using rev_ind; [split; reflexivity|].
  rewrite splitByCrawl_snoc, crawlIds_snoc, filter_app, noCrawlB_single.
  destruct (crawlOf x) as [c|] eqn:Hx; simpl fst; simpl snd.
  - split; [|rewrite IH2, app_nil_r; reflexivity].
    rewrite IH1, firstOccurrences_snoc.
    rewrite (mapPush_keyed (fun cid => filter (inCrawlB cid) l) c x
               (firstOccurrences_NoDup (crawlIds l))).
    destruct (existsb (String.eqb c) (firstOccurrences (crawlIds l))) eqn:E.
    + apply map_ext. intros k.
      rewrite filter_app, inCrawlB_single, Hx, (String.eqb_sym k c).
      destruct (String.eqb c k); [reflexivity | rewrite app_nil_r; reflexivity].
    + rewrite map_app. simpl. f_equal.
      * apply map_ext_in. intros k Hk.
        rewrite filter_app, inCrawlB_single, Hx.
        destruct (String.eqb k c) eqn:E'.
        -- apply String.eqb_eq in E'. subst k.
           apply existsb_eqb_In in Hk. congruence.
        -- rewrite app_nil_r. reflexivity.
      * rewrite filter_app, inCrawlB_single, Hx, String.eqb_refl.
        rewrite inCrawlB_absent; [reflexivity|].
        intros Hin. apply firstOccurrences_In in Hin.
        apply existsb_eqb_In in Hin. congruence.
  - split; [|rewrite IH2; reflexivity].
    rewrite app_nil_r, IH1. apply map_ext. intros k.
    rewrite filter_app, inCrawlB_single, Hx, app_nil_r. reflexivity.
Qed.

Lemma mapPush_perm {A : Type} (c : string) (x : A)
    (m : list (string * list A)) :
  Permutation (flat_map snd (mapPush c x m)) (flat_map snd m ++ [x]).
Proof.
  induction m as [|[k vs] m IH]; simpl; [reflexivity|].
  destruct (String.eqb c k); simpl.
  - rewrite <- !app_assoc. apply Permutation_app_head.
    apply Permutation_app_comm.
  - rewrite <- app_assoc. apply Permutation_app_head. exact IH.
Qed.

(** Every job of a tenant is in exactly one bucket. *)
Lemma splitByCrawl_perm (l : list BulkJob) :
  Permutation (flat_map snd (fst (splitByCrawl l)) ++ snd (splitByCrawl l)) l.
Proof.
  induction l as [|x l IH] using rev_ind; [reflexivity|].
  rewrite splitByCrawl_snoc.
  destruct (crawlOf x) as [c|]; simpl fst; simpl snd.
  - rewrite mapPush_perm. rewrite <- app_assoc.
    rewrite (Permutation_app_comm [x]). rewrite app_assoc.
    apply Permutation_app_tail. exact IH.
  - rewrite app_assoc. apply Permutation_app_tail. exact IH.
Qed.

End Grouping.

Lemma filter_nil_weaken {A : Type} (f g : A -> bool) (l : list A) :
  (forall x, g x = true -> f x = true) ->
  filter f l = [] -> filter g l = [].
Proof.
  intros Himp. induction l as [|x l IH]; [reflexivity|]. simpl.
  destruct (f x) eqn:Ef; [discriminate|]. intros Hnil.
  destruct (g x) eqn:Eg; [|exact (IH Hnil)].
  apply Himp in Eg. congruence.
Qed.

Section BulkTeam.
Context {W : Type} {BE : Backend W}.
Implicit Types (w : W).

Lemma admissible_forced_perm w (buckets : list (string * list BulkJob)) :
  Permutation
    (flat_map (admissiblePart w) buckets ++ flat_map (forcedPart w) buckets)
    (flat_map snd buckets).
Proof.
  induction buckets as [|bucket rest IH]; [reflexivity|]. simpl.
  assert (Hb : admissiblePart w bucket ++ forcedPart w bucket = snd bucket).
  { unfold admissiblePart, forcedPart.
    destruct (crawlFree w (fst bucket));
      [apply firstn_skipn | apply app_nil_r]. }
  rewrite <- Hb. rewrite <- !app_assoc.
  apply Permutation_app_head.
  rewrite (app_assoc (flat_map (admissiblePart w) rest)).
  rewrite (Permutation_app_comm (flat_map (admissiblePart w) rest)).
  rewrite <- app_assoc. apply Permutation_app_head. exact IH.
Qed.

(** The two buckets of a tenant hold each of its jobs once. *)
Lemma selectJobs_perm w (teamJobs : list BulkJob) :
  Permutation
    (jobsPotentiallyInCQ (valueOf (selectJobs teamJobs w))
     ++ jobsForcedToCQ (valueOf (selectJobs teamJobs w)))
    teamJobs.
Proof.
  destruct (selectJobs_run w teamJobs) as (-> & _). simpl.
  rewrite <- (splitByCrawl_perm teamJobs) at 4.
  rewrite <- (admissible_forced_perm w (fst (splitByCrawl teamJobs))).
  rewrite <- !app_assoc. apply Permutation_app_head.
  apply Permutation_app_comm.
Qed.

(** The body of the loop over tenants, run: what goes to the worker
    queue, what goes to the concurrency queue and whether the notification
    gate is entered. *)
Lemma addScrapeJobsTeam_run w (first : WebScraperOptions) (teamId : string)
    (teamJobs : list BulkJob) :
  let b := valueOf (selectJobs teamJobs w) in
  let k := bulkHeadroom w first teamId in
  let calls := callsOf (addScrapeJobsTeam first teamId teamJobs w) in
  filter isQueueAdd calls
  = map enqueueOf (sliceTo k (jobsPotentiallyInCQ b))
  /\ filter isPushDeferred calls
     = map deferOf (sliceFrom k (jobsPotentiallyInCQ b) ++ jobsForcedToCQ b)
  /\ filter isNotificationGate calls
     = (if (len (jobsPotentiallyInCQ b) - k >? bulkCeiling w first teamId)
           && negb (isCrawlOrBatchScrape first)
        then [ShouldSendConcurrencyLimitNotification (team_id first)]
        else []).
Proof.
  intros b k calls; subst b k calls.
  unfold addScrapeJobsTeam.
  rewrite callsOf_bind.
  destruct (selectJobs_run w teamJobs) as (_ & Hs & Hd & Hp & Hn).
  rewrite Hs.
  set (b := valueOf (selectJobs teamJobs w)).
  rewrite callsOf_peek, callsOf_read, callsOf_write, callsOf_read.
  rewrite nullish_tenantCeiling.
  fold (bulkMode first). fold (bulkCeiling w first teamId).
  unfold freeSlotsOf. fold (bulkHeadroom w first teamId).
  set (k := bulkHeadroom w first teamId).
  rewrite callsOf_bind, callsOf_bind.
  rewrite !filter_app.
  cbn [filter isQueueAdd isPushDeferred isNotificationGate].
  rewrite !filter_app.
  rewrite (filter_nil_weaken isDispatch isQueueAdd _
             ltac:(intros []; simpl; congruence) Hd), Hp, Hn.
  match goal with
  | |- context [callsOf (notifyBulk ?f ?bl ?m ?w0)] =>
      destruct (notifyBulk_run w0 f bl m) as (Hnd & Hnp & Hnn);
      rewrite (filter_nil_weaken isDispatch isQueueAdd _
                 ltac:(intros []; simpl; congruence) Hnd), Hnp, Hnn
  end.
  match goal with
  | |- context [callsOf (forEach ?body ?js ?w0)] =>
      destruct (deferAll_run js w0) as (Hcp & Hcd & Hcn)
  end.
  rewrite (filter_nil_weaken isDispatch isQueueAdd _
             ltac:(intros []; simpl; congruence) Hcd), Hcp, Hcn.
  match goal with
  | |- context [callsOf (forEach ?body (sliceTo k ?pot) ?w0)] =>
      destruct (enqueueAll_run (sliceTo k pot) w0) as (Haq & Hap & Han)
  end.
  cbv zeta in Haq, Hap, Han.
  rewrite Haq, Hap, Han.
  simpl. rewrite !app_nil_r.
  repeat split.
Qed.

End BulkTeam.

(** The tenants of a bulk submission in order of first occurrence, each
    with its jobs in input order (lines 220-233). *)
Lemma groupBy_spec {A : Type} (key : A -> string) (l : list A) :
  groupBy key l
  = map (fun k => (k, filter (fun x => String.eqb k (key x)) l))
        (firstOccurrences (map key l)).
Proof.
  induction l as [|x l IH] using rev_ind; [reflexivity|].
  unfold groupBy in *. rewrite fold_left_app. simpl. rewrite IH.
  rewrite map_app. simpl map. rewrite firstOccurrences_snoc.
  rewrite (mapPush_keyed (fun k => filter (fun y => String.eqb k (key y)) l)
             (key x) x (firstOccurrences_NoDup (map key l))).
  destruct (existsb (String.eqb (key x)) (firstOccurrences (map key l)))
    eqn:E.
  - apply map_ext. intros k. rewrite filter_app. simpl.
    rewrite (String.eqb_sym k (key x)).
    destruct (String.eqb (key x) k);
      [reflexivity | rewrite app_nil_r; reflexivity].
  - rewrite map_app. simpl. f_equal.
    + apply map_ext_in. intros k Hk. rewrite filter_app. simpl.
      destruct (String.eqb k (key x)) eqn:E'.
      * apply String.eqb_eq in E'. subst k.
        apply existsb_eqb_In in Hk. congruence.
      * rewrite app_nil_r. reflexivity.
    + rewrite filter_app. simpl. rewrite String.eqb_refl.
      assert (Hnil : filter (fun y => String.eqb (key x) (key y)) l = []).
      { assert (Hn : ~ In (key x) (map key l)).
        { intros Hin. apply firstOccurrences_In in Hin.
          apply existsb_eqb_In in Hin. congruence. }
        clear -Hn. induction l as [|y l IHl]; [reflexivity|]. simpl in *.
        destruct (String.eqb (key x) (key y)) eqn:Ey.
        - apply String.eqb_eq in Ey. exfalso. apply Hn. left. congruence.
        - apply IHl. intros H. apply Hn. right. exact H. }
      rewrite Hnil. reflexivity.
Qed.

(* ===================================================================== *)
(** ** The crawl gate and the bulk path: the claims *)
(* ===================================================================== *)

(** C1, amended.  For a job with a crawl id, the per-crawl ceiling is
    [max_concurrency] if the crawl record sets it, else 1 if the record
    has a delay, else unbounded, and unbounded without a record.  On the
    single-job path (not direct to the worker queue) the job is deferred
    for the crawl limit if and only if the ceiling is bounded and
    [max(ceiling - count-crawl-active, 0)] is 0.  On the bulk path the
    jobs of a crawl bucket with a bounded ceiling are split at
    [free = max(ceiling - count-crawl-active, 0)]: the first [free] jobs
    of the bucket pass the gate and every later job of the bucket is
    deferred for the crawl limit (all of them when [free] is 0); the jobs
    of a bucket with an unbounded ceiling all pass. *)
Theorem crawl_gate {W : Type} {BE : Backend W}
    (w : W) (o : WebScraperOptions) (cid : string) (b : Buckets)
    (crawlJobs : list BulkJob) :
  truthyId (crawl_id o) = Some cid ->
  let ceiling := specCrawlCeiling (getCrawl cid w) in
  let used := len (getCrawlConcurrencyLimitActiveJobs cid w) in
  crawlConcurrencyLimit (getCrawl cid w) = ceiling
  /\ (valueOf (admissionVerdict o false w) = YesCrawl
      <-> exists c, ceiling = Some c /\ Z.max (c - used) 0 = 0)
  /\ valueOf (selectCrawlBucket b (cid, crawlJobs) w)
     = match ceiling with
       | Some c =>
           let free := Z.to_nat (Z.max (c - used) 0) in
           {| jobsForcedToCQ := jobsForcedToCQ b ++ skipn free crawlJobs;
              jobsPotentiallyInCQ :=
                jobsPotentiallyInCQ b ++ firstn free crawlJobs |}
       | None =>
           {| jobsForcedToCQ := jobsForcedToCQ b;
              jobsPotentiallyInCQ := jobsPotentiallyInCQ b ++ crawlJobs |}
       end.
Proof.
  intros Hcid ceiling used.
  split; [apply crawlConcurrencyLimit_spec|]. split.
  - rewrite admissionVerdict_value, crawlGate_value, Hcid.
    unfold crawlFree. fold ceiling. fold used.
    destruct ceiling as [c|].
    + destruct (Z.eqb_spec (Z.max (c - used) 0) 0) as [E|E].
      * split; [intros _; exists c; auto | reflexivity].
      * split.
        -- destruct (_ >=? _); discriminate.
        -- intros (c' & Hc' & Hfree). congruence.
    + split.
      * destruct (_ >=? _); discriminate.
      * intros (c' & Hc' & _). discriminate.
  - destruct (selectCrawlBucket_run w b (cid, crawlJobs)) as [-> _].
    unfold forcedPart, admissiblePart, crawlFree. cbn [fst snd].
    fold ceiling. fold used.
    destruct ceiling; [reflexivity | rewrite app_nil_r; reflexivity].
Qed.

Lemma crawl_gate_witness :
  truthyId (crawl_id Examples.crawlJob) = Some "c"
  /\ valueOf (admissionVerdict Examples.crawlJob false Examples.crawlFull)
     = YesCrawl.
Proof.
  assert (H : truthyId (crawl_id Examples.crawlJob) = Some "c")
    by reflexivity.
  split; [exact H|].
  destruct (crawl_gate Examples.crawlFull Examples.crawlJob
              {| jobsForcedToCQ := []; jobsPotentiallyInCQ := [] |} [] H)
    as (_ & Hiff & _).
  apply Hiff. exists 1. split; reflexivity.
Defined.

(** C1 as it is stated fails on the bulk path: crawl [c] has a maximal
    concurrency of 2 and one active job, so one slot is free; of two jobs
    of [c] submitted together the second is deferred for the crawl
    limit. *)
Lemma crawl_gate_counterexample :
  ~ forcedOnlyWhenFull Examples.crawlBusy
      [Examples.bulk Examples.crawlJob "j1";
       Examples.bulk Examples.crawlJob "j2"].
Proof.
  intros H.
  destruct (H (Examples.bulk Examples.crawlJob "j2") "c") as (c & Hc & Hfree).
  - vm_compute. left. reflexivity.
  - reflexivity.
  - vm_compute in Hc. inversion Hc; subst c.
    vm_compute in Hfree. discriminate.
Qed.



(* ===================================================================== *)
(** ** The wait primitive *)
(* ===================================================================== *)

Section WaitFacts.
Variable deserializeTransportableError : string -> option TransportableError.
Variable env : WaitEnv.

Lemma pollJob_found (fuel k : nat) (jobId : string) (limit : Z) (j : Job) :
  pollJob env fuel k jobId limit (Some j) = Some (inl j, k, []).
Proof. destruct fuel; reflexivity. Qed.


(** A clock that advances by at least 500 ms between two polls. *)
Lemma clock_lower_bound :
  (forall i, nowAt env i + 500 <= nowAt env (S i)) ->
  forall k, nowAt env 0 + 500 * Z.of_nat k <= nowAt env k.
Proof.
  intros Hstep k. induction k as [|k IH]; [lia|].
  specialize (Hstep k). lia.
Qed.

(** The race with a timeout: the deadline wins over a job that has not
    finished by then, and the job wins otherwise. *)
Lemma raceJob_deadline (_job : Job + string) (t : Z) (k : nat) :
  0 <= t ->
  nowAt env 0 <= nowAt env k ->
  raceJob env _job (Some t) k
  = match finish env with
    | Some (tc, c) =>
        if deadlineAt env t k <? tc
        then Rejected (ScrapeJobTimeoutError (deadlineMessage _job))
        else c
    | None => Rejected (ScrapeJobTimeoutError (deadlineMessage _job))
    end.
Proof.
  intros Ht Hclock. unfold raceJob, deadlineAt. simpl.
  destruct (finish env) as [[tc c]|]; simpl.
  - destruct (_ <? tc) eqn:E; simpl.
    + replace (_ <? _) with false; [reflexivity|].
      symmetry. apply Z.ltb_ge. lia.
    + replace (_ <? tc) with false; [reflexivity|].
      symmetry. apply Z.ltb_ge. apply Z.ltb_ge in E. lia.
  - replace (_ <? _) with false; [reflexivity|].
    symmetry. apply Z.ltb_ge. lia.
Qed.


(** [waitForJob] once the job has shown up. *)
Lemma waitForJob_materialized (fuel : nat) (_job : Job + string)
    (timeout : option Z) (job : Job) (k : nat) (calls : list WaitCall) :
  materialized env fuel _job timeout job k calls ->
  waitForJob deserializeTransportableError env fuel _job timeout
  = match raceJob env _job timeout k with
    | Rejected e =>
        Some (Rejected (rethrown deserializeTransportableError e),
              lookupCalls _job ++ calls)
    | Resolved (Some doc) => Some (Resolved doc, lookupCalls _job ++ calls)
    | Resolved None =>
        Some (fst (fromGCS env job),
              lookupCalls _job ++ calls ++ snd (fromGCS env job))
    end.
Proof.
  unfold materialized, waitForJob, lookedUp, refId, waitLimit, lookupCalls.
  intros Hm.
  destruct _job as [j|jobId]; simpl in *;
    (destruct timeout as [t|]; simpl in *; rewrite Hm; reflexivity).
Qed.

End WaitFacts.




(** C8.  A wait whose job has shown up and whose completion carries no
    document: the documents are fetched from the blob store by the id of
    the job; without a blob, or with an empty list of documents, the call
    fails with the error that the job was not found in the blob store;
    otherwise the first document is returned, after the blob has been
    removed when the job is marked zero-data-retention. *)
Theorem result_from_blob_store
    (deserializeTransportableError : string -> option TransportableError)
    (env : WaitEnv) (fuel : nat) (_job : Job + string) (timeout : option Z)
    (job : Job) (k : nat) (calls : list WaitCall) :
  materialized env fuel _job timeout job k calls ->
  raceJob env _job timeout k = Resolved None ->
  waitForJob deserializeTransportableError env fuel _job timeout
  = Some
      match getJobFromGCS env (job_id job) with
      | Some (doc :: _) =>
          (Resolved doc,
           lookupCalls _job ++ calls
           ++ GetJobFromGCS (job_id job)
              :: (if zeroRetention job
                  then [RemoveJobFromGCS (job_id job)] else []))
      | _ =>
          (Rejected (Generic "Job not found in GCS"),
           lookupCalls _job ++ calls ++ [GetJobFromGCS (job_id job)])
      end.
Proof.
  intros Hm Hrace.
  rewrite (waitForJob_materialized _ Hm), Hrace.
  unfold fromGCS, zeroRetention.
  destruct (getJobFromGCS env (job_id job)) as [[|doc rest]|];
    try reflexivity.
  destruct (truthyBool _); reflexivity.
Qed.

Lemma result_from_blob_store_witness :
  waitForJob Examples.deserializeNone Examples.outOfBand 1 (inr "z")
             (Some 1000)
  = Some (Resolved {| markdown := "# page" |},
          [QueueGetJob "z"; GetJobFromGCS "z"; RemoveJobFromGCS "z"]).
Proof.
  apply (@result_from_blob_store Examples.deserializeNone Examples.outOfBand
           1 (inr "z") (Some 1000) Examples.retainedHandle 1%nat []).
  - reflexivity.
  - reflexivity.
Defined.

(** C9.  A wait whose job has shown up and whose race is lost to an
    error: the call fails, after the same calls, with that error itself
    when it is a transportable error; with the transportable error its
    message deserializes to when it is another [Error] whose message
    deserializes, so that the serialized form of a transportable error
    comes back with its kind and its message; and with the original error
    or value in every other case. *)
Theorem wait_rethrows
    (deserializeTransportableError : string -> option TransportableError)
    (serialize : TransportableError -> string)
    (env : WaitEnv) (fuel : nat) (_job : Job + string) (timeout : option Z)
    (job : Job) (k : nat) (calls : list WaitCall) (e : Thrown) :
  materialized env fuel _job timeout job k calls ->
  raceJob env _job timeout k = Rejected e ->
  exists e',
    waitForJob deserializeTransportableError env fuel _job timeout
    = Some (Rejected e', lookupCalls _job ++ calls)
    /\ (forall t, e = Typed t -> e' = Typed t)
    /\ (forall msg x, e = Generic msg ->
                      deserializeTransportableError msg = Some x ->
                      e' = Typed x)
    /\ (forall t, e = Generic (serialize t) ->
                  deserializeTransportableError (serialize t) = Some t ->
                  e' = Typed t
                  /\ (forall c m ca, e' = Typed {| code := c; message := m;
                                                   cause := ca |} ->
                                     c = code t /\ m = message t))
    /\ (forall msg, e = Generic msg ->
                    deserializeTransportableError msg = None ->
                    e' = Generic msg)
    /\ (forall v, e = NonError v -> e' = NonError v).
Proof.
  intros Hm Hrace.
  exists (rethrown deserializeTransportableError e).
  split; [rewrite (waitForJob_materialized _ Hm), Hrace; reflexivity|].
  split; [intros t ->; reflexivity|].
  split; [intros msg x -> Hx; simpl; rewrite Hx; reflexivity|].
  split.
  { intros t -> Hround.
    assert (Hr : rethrown deserializeTransportableError
                   (Generic (serialize t)) = Typed t)
      by (simpl; rewrite Hround; reflexivity).
    split; [exact Hr|].
    intros c m ca Heq. rewrite Hr in Heq.
    inversion Heq; subst t. split; reflexivity. }
  split; [intros msg -> Hx; simpl; rewrite Hx; reflexivity|].
  intros v ->. reflexivity.
Qed.

Lemma wait_rethrows_witness :
  waitForJob Examples.deserializeOne Examples.failing 1 (inr "j") (Some 1000)
  = Some (Rejected (Typed Examples.sslError), [QueueGetJob "j"]).
Proof.
  destruct (@wait_rethrows Examples.deserializeOne Examples.serializeOne
              Examples.failing 1 (inr "j") (Some 1000)
              Examples.handle 1%nat []
              (Generic (Examples.serializeOne Examples.sslError)))
    as (e' & Hrun & _ & _ & Hround & _).
  - reflexivity.
  - reflexivity.
  - destruct (Hround Examples.sslError eq_refl eq_refl) as [-> _].
    exact Hrun.
Defined.

(* ===================================================================== *)
(** ** The scenarios of section 8 of the specification, run *)
(* ===================================================================== *)

Section Scenarios.
Import Examples.

(** Tenant saturation: ceiling 2, five ad-hoc jobs. *)
Example scenario_tenant_saturation :
  let calls := run Ledger.empty
                 [bulk adHoc "1"; bulk adHoc "2"; bulk adHoc "3";
                  bulk adHoc "4"; bulk adHoc "5"] in
  enqueuedJobIds calls = ["1"; "2"]
  /\ deferredJobIds calls = ["3"; "4"; "5"]
  /\ filter isNotificationGate calls
     = [ShouldSendConcurrencyLimitNotification "t"].
Proof. vm_compute. repeat split. Qed.

(** Crawl backpressure: a maximal concurrency of 1, four jobs of the
    crawl. *)
Example scenario_crawl_backpressure :
  let calls := run ceilingThree
                 [bulk crawlJob "1"; bulk crawlJob "2"; bulk crawlJob "3";
                  bulk crawlJob "4"] in
  enqueuedJobIds calls = ["1"]
  /\ deferredJobIds calls = ["2"; "3"; "4"]
  /\ filter isNotificationGate calls = [].
Proof. vm_compute. repeat split. Qed.

(** A delay alone is a ceiling of 1. *)
Example scenario_delay_is_ceiling_one :
  let calls := run delayed [bulk crawlJob "1"; bulk crawlJob "2"] in
  enqueuedJobIds calls = ["1"] /\ deferredJobIds calls = ["2"].
Proof. vm_compute. repeat split. Qed.

(** Bulk mixed: ceiling 3, three jobs of a crawl with a maximal
    concurrency of 1 and three ad-hoc jobs. *)
Example scenario_bulk_mixed :
  let calls := run ceilingThree
                 [bulk crawlJob "c1"; bulk crawlJob "c2"; bulk crawlJob "c3";
                  bulk adHoc "a1"; bulk adHoc "a2"; bulk adHoc "a3"] in
  enqueuedJobIds calls = ["c1"; "a1"; "a2"]
  /\ deferredJobIds calls = ["a3"; "c2"; "c3"]
  /\ filter isNotificationGate calls = [].
Proof. vm_compute. repeat split. Qed.

(** A wait of 200 ms on a job that is not in the worker queue fails at
    the first poll, 500 ms after the start, without a blob fetch. *)
Example scenario_wait_in_queue :
  waitForJob deserializeNone neverQueued 1 (inr "j") (Some 200)
  = Some (Rejected (ScrapeJobTimeoutError inQueueMessage),
          [QueueGetJob "j"; Sleep 500; QueueGetJob "j"]).
Proof. reflexivity. Qed.

End Scenarios.

(* ===================================================================== *)
(** ** Further properties of the single-job path *)
(* ===================================================================== *)

Section SingleMore.
Context {W : Type} {BE : Backend W}.
Implicit Types (w : W) (o : WebScraperOptions).

Lemma quiet_no_queueAdd (l : list Call) :
  filter isDispatch l = [] -> filter isQueueAdd l = [].
Proof.
  apply filter_nil_weaken. intros []; simpl; congruence.
Qed.

Lemma quiet_no_pushActive (l : list Call) :
  filter isDispatch l = [] -> filter isPushActive l = [].
Proof.
  apply filter_nil_weaken. intros []; simpl; congruence.
Qed.

Lemma crawlGate_calls w o :
  callsOf (crawlGate o w)
  = match truthyId (crawl_id o) with
    | Some cid => crawlReads w cid
    | None => []
    end.
Proof.
  unfold crawlGate, crawlReads.
  destruct (truthyId (crawl_id o)) as [cid|]; [|reflexivity].
  rewrite callsOf_read, <- crawlConcurrencyLimit_spec.
  destruct (crawlConcurrencyLimit (getCrawl cid w)) as [c|]; [|reflexivity].
  rewrite callsOf_read.
  destruct (freeSlotsOf c _ =? 0); reflexivity.
Qed.

Lemma slotCalls_filters w o (jobId : string) :
  filter isLimitRead (slotCalls w o jobId) = []
  /\ filter isMirror (slotCalls w o jobId) = []
  /\ filter isNotification (slotCalls w o jobId) = []
  /\ filter isPushDeferred (slotCalls w o jobId) = []
  /\ filter isQueueAdd (slotCalls w o jobId) = []
  /\ filter isPushActive (slotCalls w o jobId)
     = (if truthyString (team_id o)
        then [PushConcurrencyLimitActiveJob (team_id o) jobId 60000]
        else []).
Proof.
  unfold slotCalls.
  destruct (truthyString (team_id o)); [|repeat split].
  destruct (truthyId (crawl_id o)) as [cid|]; [|repeat split].
  destruct (truthyNumber (jobDelay o) || _); repeat split.
Qed.

End SingleMore.

(** X1.  A job sent direct to the worker queue passes no gate: the call
    makes the calls of the enqueue helper and no other, so it reads no
    ceiling and no count, defers nothing and enters no notification gate;
    it is enqueued once and a handle with its id, its payload as passed
    and the caller's options under the given priority and id comes back.
    The push-active for a non-empty [team_id] is still made. *)
Theorem direct_to_worker {W : Type} {BE : Backend W}
    (w : W) (o : WebScraperOptions) (options : JobOpts) (jobId : string)
    (p : Z) :
  let r := addScrapeJobRaw o options jobId p true w in
  valueOf r
  = (Some {| job_id := jobId; job_data := o;
             job_opts := {| opt_extra := opt_extra options;
                            opt_priority := Some p;
                            opt_jobId := Some jobId |} |}, o)
  /\ callsOf r = callsOf (_addScrapeJobToBullMQ o options jobId p w)
  /\ filter isLimitRead (callsOf r) = []
  /\ filter isNotification (callsOf r) = []
  /\ filter isPushDeferred (callsOf r) = []
  /\ filter isQueueAdd (callsOf r)
     = [QueueAdd jobId o (spreadOpts options p jobId)]
  /\ filter isPushActive (callsOf r)
     = (if truthyString (team_id o)
        then [PushConcurrencyLimitActiveJob (team_id o) jobId 60000]
        else []).
Proof.
  intros r; subst r.
  pose proof (addScrapeJobRaw_run w o options jobId p true) as Hrun.
  cbv zeta in Hrun. rewrite Hrun. clear Hrun.
  change (valueOf (admissionVerdict o true w)) with No.
  change (storeOf (admissionVerdict o true w)) with w.
  change (callsOf (admissionVerdict o true w)) with (@nil Call).
  cbv iota.
  destruct (addToBullMQ_run w o options jobId p) as [-> Hc].
  remember (callsOf (_addScrapeJobToBullMQ o options jobId p w)) as cs.
  unfold valueOf, callsOf. cbn [fst snd app].
  split; [reflexivity|]. split; [reflexivity|].
  rewrite Hc, !filter_app.
  destruct (slotCalls_filters w o jobId) as (-> & _ & -> & -> & -> & ->).
  destruct (mirrorEligible o && mirrorDraw w);
    destruct (truthyString (team_id o)); repeat split.
Qed.

Section SingleMoreFacts.
Context {W : Type} {BE : Backend W}.
Implicit Types (w : W) (o : WebScraperOptions).

(** The calls of the verdict of a job that is not sent direct. *)
Lemma admissionVerdict_calls w o :
  callsOf (admissionVerdict o false w)
  = callsOf (crawlGate o w)
    ++ match valueOf (crawlGate o w) with
       | Some _ => []
       | None =>
           [GetACUCTeam (team_id o) (gateMode o);
            CleanOldConcurrencyLimitEntries (team_id o) (dateNow w);
            GetConcurrencyLimitActiveJobs (team_id o) (dateNow w)]
       end.
Proof.
  rewrite admissionVerdict_run.
  destruct (valueOf (crawlGate o w)); [reflexivity|].
  rewrite tenantGate_run. reflexivity.
Qed.

Lemma admissionVerdict_store_crawl w o direct :
  valueOf (admissionVerdict o direct w) = YesCrawl ->
  direct = false
  /\ valueOf (crawlGate o w) = Some YesCrawl
  /\ storeOf (admissionVerdict o direct w) = w.
Proof.
  destruct direct; [discriminate|].
  rewrite admissionVerdict_run.
  destruct (valueOf (crawlGate o w)) as [v|] eqn:E.
  - unfold valueOf, storeOf; cbn [fst snd]. intros ->. auto.
  - rewrite tenantGate_run. unfold valueOf; cbn [fst snd].
    destruct (_ >=? _); discriminate.
Qed.

Lemma admissionVerdict_no_mirror w o direct :
  filter isMirror (callsOf (admissionVerdict o direct w)) = [].
Proof.
  destruct direct; [reflexivity|].
  rewrite admissionVerdict_calls, crawlGate_calls, filter_app.
  unfold crawlReads.
  destruct (truthyId (crawl_id o)) as [cid|];
    [destruct (specCrawlCeiling (getCrawl cid w))|];
    destruct (valueOf (crawlGate o w)); reflexivity.
Qed.

Lemma beforeDefer_no_mirror v w o :
  filter isMirror (callsOf (beforeDefer v o w)) = [].
Proof.
  destruct v; simpl; auto.
  rewrite notifySingle_calls; simpl.
  destruct (_ >? 0); simpl; auto.
  destruct (shouldSendConcurrencyLimitNotification _ w); reflexivity.
Qed.

End SingleMoreFacts.

(** X2.  A single job deferred for the crawl limit is deferred on the
    crawl's reads alone: the call reads the crawl record and the crawl's
    active jobs, pushes the flagged payload to the concurrency queue of
    the job's tenant with an unbounded hold, and makes no other call; the
    tenant's ceiling is not looked up, clean-expired is not run and the
    notification gate is not entered. *)
Theorem crawl_deferral_skips_tenant {W : Type} {BE : Backend W}
    (w : W) (o : WebScraperOptions) (options : JobOpts) (jobId : string)
    (p : Z) (direct : bool) :
  valueOf (admissionVerdict o direct w) = YesCrawl ->
  exists cid,
    truthyId (crawl_id o) = Some cid
    /\ direct = false
    /\ addScrapeJobRaw o options jobId p direct w
       = ((None, setConcurrencyLimited o),
          pushConcurrencyLimitedJob (team_id o)
            (deferredEntry (setConcurrencyLimited o) options jobId p)
            Infinity w,
          [GetCrawl cid;
           GetCrawlConcurrencyLimitActiveJobs cid;
           PushConcurrencyLimitedJob (team_id o)
             (deferredEntry (setConcurrencyLimited o) options jobId p)
             Infinity]).
Proof.
  intros Hv.
  destruct (admissionVerdict_store_crawl w o direct Hv) as (-> & Hg & Hs).
  pose proof (addScrapeJobRaw_run w o options jobId p false) as Hrun.
  cbv zeta in Hrun. rewrite Hrun, Hv, Hs. clear Hrun. cbv iota.
  rewrite admissionVerdict_calls, Hg, crawlGate_calls, holdMs_cases.
  rewrite crawlGate_value in Hg.
  destruct (truthyId (crawl_id o)) as [cid|]; [|discriminate].
  exists cid. split; [reflexivity|]. split; [reflexivity|].
  unfold crawlReads. unfold crawlFree in Hg.
  destruct (specCrawlCeiling (getCrawl cid w)); [reflexivity|discriminate].
Qed.

Lemma crawl_deferral_skips_tenant_witness :
  callsOf (addScrapeJobRaw Examples.crawlJob Ledger.noOpts "j" 10 false
                           Examples.crawlFull)
  = [GetCrawl "c";
     GetCrawlConcurrencyLimitActiveJobs "c";
     PushConcurrencyLimitedJob "t"
       (deferredEntry (setConcurrencyLimited Examples.crawlJob)
                      Ledger.noOpts "j" 10)
       Infinity].
Proof.
  assert (H : valueOf (admissionVerdict Examples.crawlJob false
                                        Examples.crawlFull) = YesCrawl)
    by reflexivity.
  destruct (@crawl_deferral_skips_tenant _ _ Examples.crawlFull
              Examples.crawlJob Ledger.noOpts "j" 10 false H)
    as (cid & Hcid & _ & Hrun).
  rewrite Hrun. inversion Hcid; subst cid. reflexivity.
Defined.

(** Where a single job goes, by its verdict. *)
Lemma single_destination_by_verdict {W : Type} {BE : Backend W}
    (w : W) (o : WebScraperOptions) (options : JobOpts) (jobId : string)
    (p : Z) (direct : bool) :
  let r := addScrapeJobRaw o options jobId p direct w in
  match valueOf (admissionVerdict o direct w) with
  | No =>
      valueOf r
      = (Some {| job_id := jobId; job_data := o;
                 job_opts := spreadOpts options p jobId |}, o)
      /\ filter isQueueAdd (callsOf r)
         = [QueueAdd jobId o (spreadOpts options p jobId)]
      /\ filter isPushDeferred (callsOf r) = []
  | _ =>
      valueOf r = (None, setConcurrencyLimited o)
      /\ filter isQueueAdd (callsOf r) = []
      /\ filter isPushDeferred (callsOf r)
         = [PushConcurrencyLimitedJob (team_id o)
              (deferredEntry (setConcurrencyLimited o) options jobId p)
              (holdMs o)]
  end.
Proof.
  intros r; subst r.
  pose proof (addScrapeJobRaw_run w o options jobId p direct) as Hrun.
  cbv zeta in Hrun. rewrite Hrun. clear Hrun.
  destruct (admissionVerdict_quiet w o direct) as [Hd Hp].
  pose proof (quiet_no_queueAdd _ Hd) as Hq.
  remember (callsOf (admissionVerdict o direct w)) as t1.
  remember (storeOf (admissionVerdict o direct w)) as w1.
  destruct (valueOf (admissionVerdict o direct w)) eqn:Hv.
  - destruct (beforeDefer_quiet Yes w1 o) as [Hbd Hbp].
    pose proof (quiet_no_queueAdd _ Hbd) as Hbq.
    remember (callsOf (beforeDefer Yes o w1)) as t2.
    unfold valueOf, callsOf; cbn [fst snd].
    rewrite !filter_app, Hq, Hp, Hbq, Hbp. repeat split.
  - unfold valueOf, callsOf; cbn [fst snd beforeDefer ret].
    rewrite !filter_app, Hq, Hp. repeat split.
  - destruct (addToBullMQ_run w1 o options jobId p) as [Hval Hc].
    destruct (enqueueOne_filters w1 o options jobId p) as (Hq2 & Hp2 & _).
    cbv zeta in Hq2, Hp2.
    remember (callsOf (_addScrapeJobToBullMQ o options jobId p w1)) as t2.
    rewrite Hval.
    unfold valueOf, callsOf; cbn [fst snd].
    rewrite !filter_app, Hq, Hp, Hq2, Hp2. repeat split.
Qed.

(** X3.  A single job goes to exactly one place.  Either a handle comes
    back, the job was enqueued once on the worker queue with its payload
    as passed and nothing was pushed to a concurrency queue; or null
    comes back, the flagged payload was pushed once to the concurrency
    queue and nothing was enqueued on the worker queue. *)
Theorem single_job_one_destination {W : Type} {BE : Backend W}
    (w : W) (o : WebScraperOptions) (options : JobOpts) (jobId : string)
    (p : Z) (direct : bool) :
  let r := addScrapeJobRaw o options jobId p direct w in
  (valueOf r
   = (Some {| job_id := jobId; job_data := o;
              job_opts := spreadOpts options p jobId |}, o)
   /\ filter isQueueAdd (callsOf r)
      = [QueueAdd jobId o (spreadOpts options p jobId)]
   /\ filter isPushDeferred (callsOf r) = [])
  \/ (valueOf r = (None, setConcurrencyLimited o)
      /\ filter isQueueAdd (callsOf r) = []
      /\ filter isPushDeferred (callsOf r)
         = [PushConcurrencyLimitedJob (team_id o)
              (deferredEntry (setConcurrencyLimited o) options jobId p)
              (holdMs o)]).
Proof.
  intros r; subst r.
  pose proof (single_destination_by_verdict w o options jobId p direct) as H.
  cbv zeta in H.
  destruct (valueOf (admissionVerdict o direct w));
    [right | right | left]; exact H.
Qed.

(** X4.  A tenant whose ceiling is 0 or less gets nothing enqueued: a
    single job that is not sent direct comes back null with no enqueue on
    the worker queue, and a tenant bucket of a bulk submission enqueues
    no job and pushes every job of the bucket to the concurrency queue. *)
Theorem closed_tenant_defers_all {W : Type} {BE : Backend W}
    (w : W) (o : WebScraperOptions) (options : JobOpts) (jobId : string)
    (p : Z) (first : WebScraperOptions) (teamId : string)
    (teamJobs : list BulkJob) :
  (tenantCeiling (getACUCTeam (team_id o) (gateMode o) w) <= 0 ->
   let r := addScrapeJobRaw o options jobId p false w in
   fst (valueOf r) = None /\ filter isQueueAdd (callsOf r) = [])
  /\ (bulkCeiling w first teamId <= 0 ->
      let calls := callsOf (addScrapeJobsTeam first teamId teamJobs w) in
      filter isQueueAdd calls = []
      /\ exists deferred,
           filter isPushDeferred calls = map deferOf deferred
           /\ Permutation deferred teamJobs).
Proof.
  split.
  - intros Hceil r; subst r.
    assert (Hv : valueOf (admissionVerdict o false w) <> No).
    { rewrite admissionVerdict_value.
      pose proof (crawlGate_value w o) as Hg.
      destruct (valueOf (crawlGate o w)) as [v|].
      - destruct (truthyId (crawl_id o)) as [cid|]; [|discriminate].
        destruct (crawlFree w cid) as [free|]; [|discriminate].
        destruct (free =? 0); [|discriminate].
        inversion Hg; subst v. discriminate.
      - cbv zeta.
        replace (_ >=? _) with true; [discriminate|].
        symmetry. apply Z.geb_le. unfold len. lia. }
    pose proof (single_destination_by_verdict w o options jobId p false)
      as Hdest.
    cbv zeta in Hdest.
    destruct (valueOf (admissionVerdict o false w));
      [| | contradiction Hv; reflexivity];
      destruct Hdest as (Hval & Hq & _); rewrite Hval;
      (split; [reflexivity | exact Hq]).
  - intros Hceil calls; subst calls.
    destruct (addScrapeJobsTeam_run w first teamId teamJobs) as (Hq & Hp & _).
    assert (Hk : bulkHeadroom w first teamId = 0).
    { unfold bulkHeadroom. cbv zeta. unfold len. lia. }
    rewrite Hk in Hq, Hp. unfold sliceTo, sliceFrom in Hq, Hp.
    simpl in Hq, Hp.
    split; [exact Hq|].
    eexists. split; [exact Hp | apply selectJobs_perm].
Qed.

Lemma closed_tenant_defers_all_witness :
  fst (valueOf (addScrapeJobRaw Examples.adHoc Ledger.noOpts "j" 10 false
                                MoreExamples.closed)) = None
  /\ filter isQueueAdd
       (callsOf (addScrapeJobsTeam Examples.adHoc "t"
                   [Examples.bulk Examples.adHoc "a";
                    Examples.bulk Examples.batchJob "b"]
                   MoreExamples.closed)) = [].
Proof.
  destruct (@closed_tenant_defers_all _ _ MoreExamples.closed Examples.adHoc
              Ledger.noOpts "j" 10 Examples.adHoc "t"
              [Examples.bulk Examples.adHoc "a";
               Examples.bulk Examples.batchJob "b"]) as [Hs Hb].
  split.
  - apply Hs. vm_compute. discriminate.
  - apply Hb. vm_compute. discriminate.
Defined.

(** X5.  A job marked zero-data-retention, on either flag, is never
    mirrored to staging, by either entry point; and a single job that is
    deferred is not mirrored either, whatever its payload. *)
Theorem retention_never_mirrored {W : Type} {BE : Backend W}
    (w : W) (o : WebScraperOptions) (options : JobOpts) (jobId : string)
    (p : Z) (direct : bool) :
  (markedZeroRetention o = true ->
   filter isMirror (callsOf (_addScrapeJobToBullMQ o options jobId p w)) = []
   /\ filter isMirror
        (callsOf (addScrapeJobRaw o options jobId p direct w)) = [])
  /\ (fst (valueOf (addScrapeJobRaw o options jobId p direct w)) = None ->
      filter isMirror
        (callsOf (addScrapeJobRaw o options jobId p direct w)) = []).
Proof.
  assert (Hbull : forall w', markedZeroRetention o = true ->
            filter isMirror
              (callsOf (_addScrapeJobToBullMQ o options jobId p w')) = []).
  { intros w' Hz.
    destruct (addToBullMQ_run w' o options jobId p) as [_ ->].
    rewrite !filter_app.
    destruct (slotCalls_filters w' o jobId) as (_ & -> & _).
    assert (He : mirrorEligible o = false).
    { unfold markedZeroRetention in Hz. unfold mirrorEligible.
      apply orb_true_iff in Hz. destruct Hz as [-> | ->];
        rewrite ?andb_false_r; reflexivity. }
    rewrite He. reflexivity. }
  pose proof (addScrapeJobRaw_run w o options jobId p direct) as Hrun.
  cbv zeta in Hrun. rewrite Hrun. clear Hrun.
  pose proof (admissionVerdict_no_mirror w o direct) as Hm.
  remember (callsOf (admissionVerdict o direct w)) as t1.
  remember (storeOf (admissionVerdict o direct w)) as w1.
  split.
  - intros Hz. split; [apply Hbull; exact Hz|].
    destruct (valueOf (admissionVerdict o direct w)).
    + pose proof (beforeDefer_no_mirror Yes w1 o) as Hb.
      remember (callsOf (beforeDefer Yes o w1)) as t2.
      unfold callsOf; cbn [fst snd]. rewrite !filter_app, Hm, Hb. reflexivity.
    + unfold callsOf; cbn [fst snd beforeDefer ret].
      rewrite !filter_app, Hm. reflexivity.
    + pose proof (Hbull w1 Hz) as Hb.
      remember (callsOf (_addScrapeJobToBullMQ o options jobId p w1)) as t2.
      unfold callsOf; cbn [fst snd]. rewrite !filter_app, Hm, Hb. reflexivity.
  - destruct (valueOf (admissionVerdict o direct w)).
    + intros _. pose proof (beforeDefer_no_mirror Yes w1 o) as Hb.
      remember (callsOf (beforeDefer Yes o w1)) as t2.
      unfold callsOf; cbn [fst snd]. rewrite !filter_app, Hm, Hb. reflexivity.
    + intros _. unfold callsOf; cbn [fst snd beforeDefer ret].
      rewrite !filter_app, Hm. reflexivity.
    + unfold valueOf; cbn [fst snd]. discriminate.
Qed.

Lemma retention_never_mirrored_witness :
  markedZeroRetention Examples.retained = true
  /\ filter isMirror
       (callsOf (addScrapeJobRaw Examples.retained Ledger.noOpts "z" 10 true
                                 MoreExamples.closed)) = []
  /\ filter isMirror
       (callsOf (addScrapeJobRaw Examples.adHoc Ledger.noOpts "j" 10 true
                                 MoreExamples.closed))
     = [MirrorToStaging "https://example.com"].
Proof.
  split; [reflexivity|]. split; [|reflexivity].
  destruct (@retention_never_mirrored _ _ MoreExamples.closed
              Examples.retained Ledger.noOpts "z" 10 true) as [Hz _].
  apply Hz. reflexivity.
Defined.

(* ===================================================================== *)
(** ** Further properties of the bulk path *)
(* ===================================================================== *)

Lemma flat_map_map {A B C : Type} (f : B -> list C) (g : A -> B)
    (l : list A) :
  flat_map f (map g l) = flat_map (fun x => f (g x)) l.
Proof. induction l as [|x l IH]; simpl; congruence. Qed.


Lemma groupBy_perm {A : Type} (key : A -> string) (l : list A) :
  Permutation (flat_map snd (groupBy key l)) l.
Proof.
  induction l as [|x l IH] using rev_ind; [reflexivity|].
  unfold groupBy in *. rewrite fold_left_app. simpl.
  rewrite mapPush_perm. apply Permutation_app_tail. exact IH.
Qed.

Lemma perm_interleave {A : Type} (e1 e2 d1 d2 b r : list A) :
  Permutation (e1 ++ d1) b -> Permutation (e2 ++ d2) r ->
  Permutation ((e1 ++ e2) ++ (d1 ++ d2)) (b ++ r).
Proof.
  intros H1 H2. rewrite <- H1, <- H2.
  rewrite <- !app_assoc. apply Permutation_app_head.
  rewrite !app_assoc. apply Permutation_app_tail.
  apply Permutation_app_comm.
Qed.

Section BulkMore.
Context {W : Type} {BE : Backend W}.
Implicit Types (w : W).

Lemma forEach_filter_Forall {A : Type} (P : Call -> Prop) (f : Call -> bool)
    (body : A -> M W unit) :
  (forall x w, Forall P (filter f (callsOf (body x w)))) ->
  forall xs w, Forall P (filter f (callsOf (forEach body xs w))).
Proof.
  intros Hbody xs. induction xs as [|x xs IH]; intros w; [constructor|].
  simpl forEach. rewrite callsOf_bind, filter_app.
  apply Forall_app. split; [apply Hbody | apply IH].
Qed.

Lemma selectCrawlBuckets_calls w (buckets : list (string * list BulkJob)) :
  forall b,
    callsOf (selectCrawlBuckets b buckets w)
    = flat_map (fun bucket => crawlReads w (fst bucket)) buckets.
Proof.
  induction buckets as [|bucket rest IH]; intros b; [reflexivity|].
  simpl selectCrawlBuckets. rewrite callsOf_bind.
  destruct (selectCrawlBucket_run w b bucket) as (_ & -> & _).
  rewrite IH. simpl. f_equal.
  unfold selectCrawlBucket, crawlReads.
  rewrite callsOf_read, <- crawlConcurrencyLimit_spec.
  destruct (crawlConcurrencyLimit (getCrawl (fst bucket) w));
    [rewrite callsOf_read|]; reflexivity.
Qed.

Lemma selectJobs_calls w (teamJobs : list BulkJob) :
  callsOf (selectJobs teamJobs w)
  = flat_map (crawlReads w) (firstOccurrences (crawlIds teamJobs)).
Proof.
  unfold selectJobs. rewrite callsOf_bind, selectCrawlBuckets_calls.
  destruct (splitByCrawl_spec teamJobs) as [-> _].
  rewrite flat_map_map. cbv beta.
  change (callsOf (ret ?a ?s)) with (@nil Call).
  rewrite app_nil_r. reflexivity.
Qed.

Lemma crawlReads_no_notification w (ks : list string) :
  filter isNotification (flat_map (crawlReads w) ks) = [].
Proof.
  induction ks as [|k ks IH]; [reflexivity|].
  simpl. rewrite filter_app, IH. unfold crawlReads.
  destruct (specCrawlCeiling (getCrawl k w)); reflexivity.
Qed.

(** The calls a tenant bucket makes to the notification service. *)
Lemma addScrapeJobsTeam_notifications w (first : WebScraperOptions)
    (teamId : string) (teamJobs : list BulkJob) :
  let pot := jobsPotentiallyInCQ (valueOf (selectJobs teamJobs w)) in
  let k := bulkHeadroom w first teamId in
  let w1 := cleanOldConcurrencyLimitEntries teamId (dateNow w) w in
  filter isNotification (callsOf (addScrapeJobsTeam first teamId teamJobs w))
  = if (len pot - k >? bulkCeiling w first teamId)
       && negb (isCrawlOrBatchScrape first)
    then ShouldSendConcurrencyLimitNotification (team_id first)
         :: (if shouldSendConcurrencyLimitNotification (team_id first) w1
             then [SendNotificationWithCustomDays (team_id first) 15]
             else [])
    else [].
Proof.
  intros pot k w1; subst pot k w1.
  unfold addScrapeJobsTeam.
  rewrite callsOf_bind.
  destruct (selectJobs_run w teamJobs) as (_ & Hs & _).
  rewrite Hs, selectJobs_calls.
  rewrite callsOf_peek, callsOf_read, callsOf_write, callsOf_read.
  rewrite nullish_tenantCeiling.
  fold (bulkMode first). fold (bulkCeiling w first teamId).
  unfold freeSlotsOf. fold (bulkHeadroom w first teamId).
  rewrite callsOf_bind, callsOf_bind.
  rewrite !filter_app, crawlReads_no_notification.
  cbn [filter isNotification app].
  rewrite !filter_app.
  rewrite (forEach_filter isNotification _ (fun _ => []))
    by (intros x w'; reflexivity).
  rewrite (forEach_filter isNotification _ (fun _ => [])).
  - rewrite !flat_map_nil, !app_nil_r.
    unfold notifyBulk.
    destruct (_ >? _); [|reflexivity].
    destruct (isCrawlOrBatchScrape first); [reflexivity|].
    cbn [negb andb]. rewrite callsOf_read.
    destruct (shouldSendConcurrencyLimitNotification _ _); reflexivity.
  - intros x w'. rewrite callsOf_bind. cbv beta.
    change (callsOf (ret tt ?s)) with (@nil Call). rewrite app_nil_r.
    destruct (addToBullMQ_run w' (data x) (opts x) (bj_jobId x)
                (bj_priority x)) as [_ ->].
    rewrite !filter_app.
    destruct (slotCalls_filters w' (data x) (bj_jobId x)) as (_ & _ & -> & _).
    destruct (mirrorEligible (data x) && mirrorDraw w'); reflexivity.
Qed.

End BulkMore.

(** X6.  The selection of a tenant's jobs reads each crawl once, in order
    of first occurrence in the input, whatever the number of jobs: the
    crawl record, and the active jobs of the crawl only when its ceiling
    is bounded.  It writes nothing. *)
Theorem selection_reads_once_per_crawl {W : Type} {BE : Backend W}
    (w : W) (teamJobs : list BulkJob) :
  callsOf (selectJobs teamJobs w)
  = flat_map (fun cid =>
                GetCrawl cid
                :: match specCrawlCeiling (getCrawl cid w) with
                   | Some _ => [GetCrawlConcurrencyLimitActiveJobs cid]
                   | None => []
                   end)
             (firstOccurrences (crawlIds teamJobs))
  /\ storeOf (selectJobs teamJobs w) = w
  /\ NoDup (firstOccurrences (crawlIds teamJobs))
  /\ (forall cid, In cid (firstOccurrences (crawlIds teamJobs))
                  <-> exists j, In j teamJobs /\ crawlOf j = Some cid).
Proof.
  split; [apply selectJobs_calls|].
  split; [apply selectJobs_run|].
  split; [apply firstOccurrences_NoDup|].
  intros cid. rewrite firstOccurrences_In. unfold crawlIds.
  rewrite in_flat_map. split.
  - intros (j & Hj & Hin). exists j. split; [exact Hj|].
    destruct (crawlOf j) as [c|]; [|destruct Hin].
    destruct Hin as [->|[]]. reflexivity.
  - intros (j & Hj & Hc). exists j. split; [exact Hj|].
    rewrite Hc. left. reflexivity.
Qed.

(** X7.  A bulk submission loses no job and doubles none: over all its
    tenants, the jobs enqueued on the worker queue together with the jobs
    pushed to a concurrency queue are the jobs submitted, each once; a
    job is enqueued with its payload, id and priority as submitted and is
    deferred to the concurrency queue of its own tenant.  An empty
    submission makes no call. *)
Theorem bulk_submission_conserves_jobs {W : Type} {BE : Backend W}
    (w : W) (jobs : list BulkJob) :
  let calls := callsOf (addScrapeJobs jobs w) in
  (jobs = [] -> calls = [])
  /\ exists enqueued deferred,
       filter isQueueAdd calls = map enqueueOf enqueued
       /\ filter isPushDeferred calls = map deferOf deferred
       /\ Permutation (enqueued ++ deferred) jobs.
Proof.
  intros calls; subst calls. split; [intros ->; reflexivity|].
  destruct jobs as [|first rest]; [exists [], []; repeat split; constructor|].
  unfold addScrapeJobs.
  set (jobs := first :: rest).
  assert (Hloop : forall buckets w',
             exists enqueued deferred,
               filter isQueueAdd
                 (callsOf (forEach (fun bucket =>
                                      addScrapeJobsTeam (data first)
                                        (fst bucket) (snd bucket))
                                   buckets w'))
               = map enqueueOf enqueued
               /\ filter isPushDeferred
                    (callsOf (forEach (fun bucket =>
                                         addScrapeJobsTeam (data first)
                                           (fst bucket) (snd bucket))
                                      buckets w'))
                  = map deferOf deferred
               /\ Permutation (enqueued ++ deferred) (flat_map snd buckets)).
  { induction buckets as [|bucket more IH]; intros w'.
    - exists [], []. repeat split; constructor.
    - simpl forEach. rewrite callsOf_bind, !filter_app.
      destruct (addScrapeJobsTeam_run w' (data first) (fst bucket)
                  (snd bucket)) as (Hq & Hp & _).
      rewrite Hq, Hp.
      destruct (IH (storeOf (addScrapeJobsTeam (data first) (fst bucket)
                               (snd bucket) w')))
        as (e2 & d2 & -> & -> & Hperm).
      eexists. eexists.
      split; [rewrite <- map_app; reflexivity|].
      split; [rewrite <- map_app; reflexivity|].
      simpl flat_map. apply perm_interleave; [|exact Hperm].
      unfold sliceTo, sliceFrom. rewrite app_assoc, firstn_skipn.
      apply selectJobs_perm. }
  destruct (Hloop (groupBy (fun job => team_id (data job)) jobs) w)
    as (e & d & He & Hd & Hperm).
  exists e, d. split; [exact He|]. split; [exact Hd|].
  rewrite Hperm. apply groupBy_perm.
Qed.

(** X8.  In a bulk submission every call to the notification service
    names the tenant of the first job of the whole submission, whichever
    tenant's bucket crossed its backlog bound; and when the first job is
    a crawl or batch-scrape job (it has [crawlerOptions] or a non-empty
    [crawl_id]) the submission makes no call to the notification service
    at all. *)
Theorem bulk_notifies_first_tenant {W : Type} {BE : Backend W}
    (w : W) (first : BulkJob) (rest : list BulkJob) :
  let calls := callsOf (addScrapeJobs (first :: rest) w) in
  Forall (fun c => notifiedTeam c = Some (team_id (data first)))
         (filter isNotification calls)
  /\ (isCrawlOrBatchScrape (data first) = true ->
      filter isNotification calls = []).
Proof.
  intros calls; subst calls. unfold addScrapeJobs. split.
  - apply forEach_filter_Forall. intros bucket w'.
    rewrite addScrapeJobsTeam_notifications.
    destruct (_ && _); [|constructor].
    constructor; [reflexivity|].
    destruct (shouldSendConcurrencyLimitNotification _ _);
      repeat constructor.
  - intros Hcrawl.
    assert (H : Forall (fun _ => False)
                  (filter isNotification
                     (callsOf (forEach (fun bucket =>
                                          addScrapeJobsTeam (data first)
                                            (fst bucket) (snd bucket))
                                 (groupBy (fun job => team_id (data job))
                                          (first :: rest)) w)))).
    { apply forEach_filter_Forall. intros bucket w'.
      rewrite addScrapeJobsTeam_notifications, Hcrawl, andb_false_r.
      constructor. }
    destruct (filter isNotification _) as [|c l]; [reflexivity|].
    inversion H; contradiction.
Qed.

Section CrawlShare.
Context {W : Type} {BE : Backend W}.
Implicit Types (w : W).









End CrawlShare.



(** X10.  For one job whose [is_extract] and [from_extract] agree, the
    bulk entry point and the single-job entry point decide alike: the
    bulk submission of the job alone enqueues it exactly when the
    single-job entry point does, with the same call to the worker queue.
    When they defer it, both push it to the concurrency queue of its
    tenant under the same id, options, priority and hold; the single-job
    entry point pushes the payload with the flag [concurrencyLimited]
    set, the bulk entry point pushes it as submitted. *)
Theorem one_job_bulk_agrees_with_single {W : Type} {BE : Backend W}
    (w : W) (j : BulkJob) :
  is_extract (data j) = from_extract (data j) ->
  let single := addScrapeJobRaw (data j) (opts j) (bj_jobId j)
                                (bj_priority j) false w in
  let bulk := addScrapeJobs [j] w in
  filter isQueueAdd (callsOf bulk) = filter isQueueAdd (callsOf single)
  /\ (fst (valueOf single) = None
      <-> filter isPushDeferred (callsOf bulk)
          = [PushConcurrencyLimitedJob (team_id (data j))
               (deferredEntry (data j) (opts j) (bj_jobId j) (bj_priority j))
               (holdMs (data j))])
  /\ (fst (valueOf single) = None
      <-> filter isPushDeferred (callsOf single)
          = [PushConcurrencyLimitedJob (team_id (data j))
               (deferredEntry (setConcurrencyLimited (data j)) (opts j)
                              (bj_jobId j) (bj_priority j))
               (holdMs (data j))]).
Proof.
  intros Hmode single bulk; subst single bulk.
  pose proof (single_destination_by_verdict w (data j) (opts j) (bj_jobId j)
                (bj_priority j) false) as Hs.
  cbv zeta in Hs.
  assert (Hbulk : callsOf (addScrapeJobs [j] w)
                  = callsOf (addScrapeJobsTeam (data j) (team_id (data j))
                               [j] w)).
  { unfold addScrapeJobs, groupBy. simpl fold_left. simpl forEach.
    rewrite callsOf_bind. cbv beta.
    change (callsOf (ret tt ?s)) with (@nil Call).
    rewrite app_nil_r. reflexivity. }
  rewrite Hbulk. clear Hbulk.
  destruct (addScrapeJobsTeam_run w (data j) (team_id (data j)) [j])
    as (Hq & Hp & _).
  rewrite Hq, Hp. clear Hq Hp.
  destruct (selectJobs_run w [j]) as (-> & _).
  cbn [jobsPotentiallyInCQ jobsForcedToCQ].
  pose proof (admissionVerdict_value w (data j)) as Hv.
  rewrite crawlGate_value in Hv. cbv zeta in Hv.
  unfold bulkHeadroom, bulkCeiling, bulkMode. cbv zeta.
  unfold gateMode in Hv. rewrite Hmode in Hv.
  set (ceiling := tenantCeiling _) in *.
  set (count := len _) in *.
  assert (Hcount : 0 <= count) by (subst count; unfold len; lia).
  unfold splitByCrawl. simpl fold_left.
  fold (crawlOf j). unfold admissiblePart, forcedPart.
  unfold crawlOf in *.
  destruct (truthyId (crawl_id (data j))) as [cid|] eqn:Hcid;
    cbn [fst snd flat_map app mapPush].
  - assert (Hfree : forall free, crawlFree w cid = Some free -> 0 <= free).
    { unfold crawlFree. intros free.
      destruct (specCrawlCeiling (getCrawl cid w)); [|discriminate].
      intros [= <-]. lia. }
    destruct (crawlFree w cid) as [free|] eqn:Ef.
    + specialize (Hfree free eq_refl).
      destruct (Z.eqb_spec free 0) as [->|Hne].
      * rewrite Hv in Hs. destruct Hs as (Hval & Hqa & Hpd).
        rewrite Hval, Hqa, Hpd. simpl. unfold sliceTo, sliceFrom.
        rewrite firstn_nil, skipn_nil. simpl.
        repeat split; auto.
      * replace (Z.to_nat free) with (S (Z.to_nat (free - 1))) by lia.
        simpl firstn. simpl skipn. rewrite firstn_nil, skipn_nil, !app_nil_r.
        unfold sliceTo, sliceFrom.
        destruct (Z.geb_spec count ceiling) as [Hge|Hlt];
          rewrite Hv in Hs; destruct Hs as (Hval & Hqa & Hpd);
          rewrite Hval, Hqa, Hpd.
        -- replace (Z.to_nat (Z.max (ceiling - count) 0)) with O by lia.
           simpl. repeat split; auto.
        -- replace (Z.to_nat (Z.max (ceiling - count) 0))
             with (S (Z.to_nat (ceiling - count - 1))) by lia.
           simpl. rewrite firstn_nil, skipn_nil.
           repeat split; auto; discriminate.
    + rewrite !app_nil_r. unfold sliceTo, sliceFrom.
      destruct (Z.geb_spec count ceiling) as [Hge|Hlt];
        rewrite Hv in Hs; destruct Hs as (Hval & Hqa & Hpd);
        rewrite Hval, Hqa, Hpd.
      * replace (Z.to_nat (Z.max (ceiling - count) 0)) with O by lia.
        simpl. repeat split; auto.
      * replace (Z.to_nat (Z.max (ceiling - count) 0))
          with (S (Z.to_nat (ceiling - count - 1))) by lia.
        simpl. rewrite firstn_nil, skipn_nil.
        repeat split; auto; discriminate.
  - unfold sliceTo, sliceFrom.
    destruct (Z.geb_spec count ceiling) as [Hge|Hlt];
      rewrite Hv in Hs; destruct Hs as (Hval & Hqa & Hpd);
      rewrite Hval, Hqa, Hpd.
    + replace (Z.to_nat (Z.max (ceiling - count) 0)) with O by lia.
      simpl. repeat split; auto.
    + replace (Z.to_nat (Z.max (ceiling - count) 0))
        with (S (Z.to_nat (ceiling - count - 1))) by lia.
      simpl. rewrite firstn_nil, skipn_nil.
      repeat split; auto; discriminate.
Qed.

Lemma one_job_bulk_agrees_with_single_witness :
  filter isQueueAdd
    (callsOf (addScrapeJobs [Examples.bulk Examples.adHoc "a"]
                            Examples.oneActive))
  = filter isQueueAdd
      (callsOf (addScrapeJobRaw Examples.adHoc
                  (opts (Examples.bulk Examples.adHoc "a")) "a" 10 false
                  Examples.oneActive)).
Proof.
  destruct (@one_job_bulk_agrees_with_single _ _ Examples.oneActive
              (Examples.bulk Examples.adHoc "a") eq_refl) as (H & _).
  exact H.
Defined.

(* ===================================================================== *)
(** ** Further properties of the wait primitive *)
(* ===================================================================== *)

Section WaitMore.
Variable deserializeTransportableError : string -> option TransportableError.
Variable env : WaitEnv.

Lemma polls_filters (n : nat) (jobId : string) :
  filter isBlobCall (polls n jobId) = []
  /\ List.length (filter isSleep (polls n jobId)) = n.
Proof.
  induction n as [|n [IH1 IH2]]; [split; reflexivity|].
  simpl. rewrite IH1, IH2. split; reflexivity.
Qed.

(** The polling loop ends within the fuel once a reading of the clock is
    late, whatever the worker queue answers; it makes only polls, one
    sleep each. *)
Lemma pollJob_total (jobId : string) (limit : Z) :
  forall (d k : nat) (job : option Job) (fuel : nat),
    nowAt env (k + d) - nowAt env 0 > limit ->
    (d < fuel)%nat ->
    exists r n calls,
      pollJob env fuel k jobId limit job = Some (r, n, calls)
      /\ filter isBlobCall calls = []
      /\ (List.length (filter isSleep calls) <= d + 1)%nat.
Proof.
  induction d as [|d IH]; intros k job fuel Hlate Hfuel.
  - destruct job as [j|].
    + rewrite pollJob_found. eexists _, _, _. repeat split. simpl. lia.
    + destruct fuel as [|fuel]; [lia|]. simpl.
      rewrite Nat.add_0_r in Hlate.
      replace (nowAt env k - nowAt env 0 >? limit) with true
        by (symmetry; apply Z.gtb_lt; lia).
      eexists _, _, _. repeat split. simpl. lia.
  - destruct job as [j|].
    + rewrite pollJob_found. eexists _, _, _. repeat split. simpl. lia.
    + destruct fuel as [|fuel]; [lia|]. simpl.
      destruct (nowAt env k - nowAt env 0 >? limit).
      * eexists _, _, _. repeat split. simpl. lia.
      * replace (k + S d)%nat with (S k + d)%nat in Hlate by lia.
        destruct (IH (S k) (getJobAt env k) fuel Hlate ltac:(lia))
          as (r & n & calls & -> & Hb & Hs).
        eexists _, _, _. split; [reflexivity|]. simpl.
        split; [exact Hb | lia].
Qed.

(** A poll that comes late ends the wait, whatever it finds. *)
Lemma pollJob_late (jobId : string) (limit : Z) (n : nat) :
  nowAt env n - nowAt env 0 > limit ->
  forall (d k fuel : nat),
    (k + d = n)%nat ->
    (forall i, (k <= i < n)%nat ->
               getJobAt env i = None
               /\ nowAt env i - nowAt env 0 <= limit) ->
    (d < fuel)%nat ->
    pollJob env fuel k jobId limit None
    = Some (inr (ScrapeJobTimeoutError inQueueMessage), n,
            polls (d + 1) jobId).
Proof.
  intros Hlate d. induction d as [|d IH]; intros k fuel Hk Hearly Hfuel.
  - rewrite Nat.add_0_r in Hk. subst k.
    destruct fuel as [|fuel]; [lia|]. simpl.
    replace (nowAt env n - nowAt env 0 >? limit) with true
      by (symmetry; apply Z.gtb_lt; lia).
    reflexivity.
  - destruct fuel as [|fuel]; [lia|]. simpl.
    destruct (Hearly k ltac:(lia)) as [Hnone Hle].
    replace (nowAt env k - nowAt env 0 >? limit) with false
      by (symmetry; destruct (Z.gtb_spec (nowAt env k - nowAt env 0) limit);
          [lia | reflexivity]).
    rewrite Hnone.
    rewrite (IH (S k) fuel) by first [lia | intros i Hi; apply Hearly; lia].
    reflexivity.
Qed.

Lemma fromGCS_cases (job : Job) :
  (fromGCS env job
   = (Rejected (Generic "Job not found in GCS"),
      [GetJobFromGCS (job_id job)]))
  \/ (exists doc,
        zeroRetention job = false
        /\ fromGCS env job
           = (Resolved doc, [GetJobFromGCS (job_id job)]))
  \/ (exists doc,
        zeroRetention job = true
        /\ fromGCS env job
           = (Resolved doc,
              [GetJobFromGCS (job_id job); RemoveJobFromGCS (job_id job)])).
Proof.
  unfold fromGCS, zeroRetention.
  destruct (getJobFromGCS env (job_id job)) as [[|doc rest]|]; auto.
  destruct (truthyBool _); [right; right | right; left];
    exists doc; split; reflexivity.
Qed.

Lemma lookupCalls_filters (_job : Job + string) :
  filter isBlobCall (lookupCalls _job) = []
  /\ filter isSleep (lookupCalls _job) = [].
Proof. destruct _job; split; reflexivity. Qed.

End WaitMore.

(** X11.  A wait on a handle, not on an id, never looks the job up and
    never sleeps: whatever the fuel, it goes to the race at once and
    settles as the race does, and its deadline error carries the message
    without the words about the concurrency limit queue. *)
Theorem wait_on_handle
    (deserializeTransportableError : string -> option TransportableError)
    (env : WaitEnv) (fuel : nat) (j : Job) (timeout : option Z) :
  exists r calls,
    waitForJob deserializeTransportableError env fuel (inl j) timeout
    = Some (r, calls)
    /\ filter isPoll calls = []
    /\ (forall doc, raceJob env (inl j) timeout 1 = Resolved (Some doc) ->
                    r = Resolved doc /\ calls = [])
    /\ (forall t, timeout = Some t -> 0 <= t ->
                  nowAt env 0 <= nowAt env 1 ->
                  (forall tc c, finish env = Some (tc, c) ->
                                deadlineAt env t 1 < tc) ->
                  r = Rejected (ScrapeJobTimeoutError "Scrape timed out")
                  /\ calls = []).
Proof.
  assert (Hm : materialized env fuel (inl j) timeout j 1 [])
    by (unfold materialized; simpl; apply pollJob_found).
  rewrite (waitForJob_materialized deserializeTransportableError Hm).
  cbn [lookupCalls app].
  destruct (raceJob env (inl j) timeout 1) as [[doc|]|e] eqn:Hrace.
  - eexists _, _. split; [reflexivity|]. split; [reflexivity|]. split.
    + intros doc' [= <-]. split; reflexivity.
    + intros t -> Ht Hclock Hlate.
      rewrite raceJob_deadline in Hrace by assumption.
      destruct (finish env) as [[tc c]|]; [|discriminate].
      specialize (Hlate tc c eq_refl).
      replace (deadlineAt env t 1 <? tc) with true in Hrace
        by (symmetry; apply Z.ltb_lt; exact Hlate).
      discriminate.
  - destruct (fromGCS_cases env j) as [H | [(doc & _ & H) | (doc & _ & H)]];
      rewrite H; cbn [fst snd];
      (eexists _, _; split; [reflexivity|]; split; [reflexivity|]; split;
       [intros doc' Hd; discriminate Hd|]);
      intros t -> Ht Hclock Hlate;
      rewrite raceJob_deadline in Hrace by assumption;
      (destruct (finish env) as [[tc c]|]; [|discriminate]);
      specialize (Hlate tc c eq_refl);
      replace (deadlineAt env t 1 <? tc) with true in Hrace
        by (symmetry; apply Z.ltb_lt; exact Hlate);
      discriminate.
  - eexists _, _. split; [reflexivity|]. split; [reflexivity|]. split.
    + intros doc Hd. discriminate Hd.
    + intros t -> Ht Hclock Hlate.
      rewrite raceJob_deadline in Hrace by assumption.
      assert (He : e = ScrapeJobTimeoutError (deadlineMessage (inl j))).
      { destruct (finish env) as [[tc c]|].
        - specialize (Hlate tc c eq_refl).
          replace (deadlineAt env t 1 <? tc) with true in Hrace
            by (symmetry; apply Z.ltb_lt; exact Hlate).
          congruence.
        - congruence. }
      subst e. split; reflexivity.
Qed.

(** X12.  The test of the timeout comes after the poll: when the poll at
    which the elapsed time first exceeds the timeout (180 000 ms when
    none is supplied) is reached without the job having shown up before,
    the wait fails with the timed-out-in-queue error even if that very
    poll finds the job; no race is run and the blob store is not
    touched. *)
Theorem late_poll_times_out
    (deserializeTransportableError : string -> option TransportableError)
    (env : WaitEnv) (jobId : string) (timeout : option Z) (n fuel : nat) :
  (1 <= n <= fuel)%nat ->
  (forall i, (i < n)%nat -> getJobAt env i = None) ->
  (forall i, (1 <= i < n)%nat ->
             nowAt env i - nowAt env 0 <= waitLimit timeout) ->
  nowAt env n - nowAt env 0 > waitLimit timeout ->
  waitForJob deserializeTransportableError env fuel (inr jobId) timeout
  = Some (Rejected (ScrapeJobTimeoutError inQueueMessage),
          QueueGetJob jobId :: polls n jobId).
Proof.
  intros Hn Hnone Hearly Hlate.
  unfold waitForJob. cbn [fst snd].
  rewrite (Hnone 0%nat) by lia.
  change (nullish timeout 180000) with (waitLimit timeout).
  rewrite (@pollJob_late env jobId (waitLimit timeout) n Hlate (n - 1) 1 fuel)
    by first [lia | intros i Hi; split; [apply Hnone | apply Hearly]; lia].
  replace (n - 1 + 1)%nat with n by lia. reflexivity.
Qed.

Lemma late_poll_times_out_witness :
  getJobAt MoreExamples.lateQueued 1 = Some Examples.handle
  /\ waitForJob Examples.deserializeNone MoreExamples.lateQueued 1
                (inr "j") (Some 200)
     = Some (Rejected (ScrapeJobTimeoutError inQueueMessage),
             [QueueGetJob "j"; Sleep 500; QueueGetJob "j"]).
Proof.
  split; [reflexivity|].
  apply (@late_poll_times_out Examples.deserializeNone
           MoreExamples.lateQueued "j" (Some 200) 1 1).
  - lia.
  - intros i Hi. replace i with 0%nat by lia. reflexivity.
  - intros i Hi. lia.
  - vm_compute. reflexivity.
Defined.

(** X13.  With a clock that advances by at least 500 ms from one poll to
    the next, a wait always ends, whatever the worker queue answers: fuel
    for [timeout / 500 + 1] polls suffices (the timeout being 180 000 ms
    when none is supplied), and the wait sleeps at most that many
    times. *)
Theorem wait_ends_within_timeout
    (deserializeTransportableError : string -> option TransportableError)
    (env : WaitEnv) (_job : Job + string) (timeout : option Z) (fuel : nat) :
  (forall i, nowAt env i + 500 <= nowAt env (S i)) ->
  (Z.to_nat (waitLimit timeout / 500) + 1 <= fuel)%nat ->
  exists r calls,
    waitForJob deserializeTransportableError env fuel _job timeout
    = Some (r, calls)
    /\ (List.length (filter isSleep calls)
        <= Z.to_nat (waitLimit timeout / 500) + 1)%nat.
Proof.
  intros Hstep Hfuel.
  set (limit := waitLimit timeout) in *.
  set (d := Z.to_nat (limit / 500)) in *.
  assert (Hlate : nowAt env (1 + d) - nowAt env 0 > limit).
  { pose proof (@clock_lower_bound env Hstep (1 + d)%nat) as Hlb.
    assert (Hdiv : limit < 500 * Z.of_nat (1 + d)).
    { subst d. destruct (Z_lt_le_dec limit 0) as [Hneg|Hpos].
      - lia.
      - rewrite Nat2Z.inj_add, Z2Nat.id by (apply Z.div_pos; lia).
        pose proof (Z.mul_succ_div_gt limit 500 ltac:(lia)). lia. }
    lia. }
  destruct (@pollJob_total env (refId _job) limit d 1%nat
              (lookedUp env _job) fuel Hlate ltac:(lia))
    as (r & n & calls & Hpoll & Hb & Hs).
  destruct (lookupCalls_filters _job) as [_ Hl].
  assert (Hshape :
            waitForJob deserializeTransportableError env fuel _job timeout
            = match pollJob env fuel 1 (refId _job) limit (lookedUp env _job)
              with
              | None => None
              | Some (inr e, _, calls) =>
                  Some (Rejected e, lookupCalls _job ++ calls)
              | Some (inl job, k, calls) =>
                  match raceJob env _job timeout k with
                  | Rejected e =>
                      Some (Rejected (rethrown deserializeTransportableError e),
                            lookupCalls _job ++ calls)
                  | Resolved (Some doc) =>
                      Some (Resolved doc, lookupCalls _job ++ calls)
                  | Resolved None =>
                      Some (fst (fromGCS env job),
                            lookupCalls _job ++ calls ++ snd (fromGCS env job))
                  end
              end).
  { unfold waitForJob, refId, lookedUp, lookupCalls, limit, waitLimit.
    destruct _job, timeout; reflexivity. }
  rewrite Hshape, Hpoll. clear Hshape.
  destruct r as [job|e].
  - destruct (raceJob env _job timeout n) as [[doc|]|e].
    + eexists _, _. split; [reflexivity|].
      rewrite filter_app, Hl. simpl. lia.
    + eexists _, _. split; [reflexivity|].
      rewrite !filter_app, Hl.
      destruct (fromGCS_cases env job)
        as [H | [(doc & _ & H) | (doc & _ & H)]];
        rewrite H; simpl; rewrite app_nil_r; lia.
    + eexists _, _. split; [reflexivity|].
      rewrite filter_app, Hl. simpl. lia.
  - eexists _, _. split; [reflexivity|].
    rewrite filter_app, Hl. simpl. lia.
Qed.

Lemma wait_ends_within_timeout_witness :
  exists r calls,
    waitForJob Examples.deserializeNone Examples.neverDone 3 (inr "j")
               (Some 1000)
    = Some (r, calls).
Proof.
  destruct (@wait_ends_within_timeout Examples.deserializeNone
              Examples.neverDone (inr "j") (Some 1000) 3)
    as (r & calls & H & _).
  - intros i. cbn [nowAt Examples.neverDone]. unfold Examples.ticks. lia.
  - vm_compute. lia.
  - exists r, calls. exact H.
Defined.





Section TenantLookups.
Context {W : Type} {BE : Backend W}.
Implicit Types (w : W).

Lemma crawlReads_no_lookup w (ks : list string) :
  filter isCeilingLookup (flat_map (crawlReads w) ks) = [].
Proof.
  induction ks as [|k ks IH]; [reflexivity|].
  simpl. rewrite filter_app, IH. unfold crawlReads.
  destruct (specCrawlCeiling (getCrawl k w)); reflexivity.
Qed.

(** The ceiling lookups of a tenant bucket. *)
Lemma addScrapeJobsTeam_lookup w (first : WebScraperOptions)
    (teamId : string) (teamJobs : list BulkJob) :
  filter isCeilingLookup
    (callsOf (addScrapeJobsTeam first teamId teamJobs w))
  = [GetACUCTeam teamId (bulkMode first)].
Proof.
  unfold addScrapeJobsTeam.
  rewrite callsOf_bind.
  destruct (selectJobs_run w teamJobs) as (_ & Hs & _).
  rewrite Hs, selectJobs_calls.
  rewrite callsOf_peek, callsOf_read, callsOf_write, callsOf_read.
  fold (bulkMode first).
  rewrite callsOf_bind, callsOf_bind.
  rewrite !filter_app, crawlReads_no_lookup.
  cbn [filter isCeilingLookup app].
  rewrite !filter_app.
  rewrite (forEach_filter isCeilingLookup _ (fun _ => []))
    by (intros x w'; reflexivity).
  rewrite (forEach_filter isCeilingLookup _ (fun _ => [])).
  - rewrite !flat_map_nil, !app_nil_r.
    unfold notifyBulk.
    destruct (_ >? _); [|reflexivity].
    destruct (negb (isCrawlOrBatchScrape first)); [|reflexivity].
    rewrite callsOf_read.
    destruct (shouldSendConcurrencyLimitNotification _ _); reflexivity.
  - intros x w'. rewrite callsOf_bind. cbv beta.
    change (callsOf (ret tt ?s)) with (@nil Call). rewrite app_nil_r.
    destruct (addToBullMQ_run w' (data x) (opts x) (bj_jobId x)
                (bj_priority x)) as [_ ->].
    rewrite !filter_app. unfold slotCalls.
    destruct (mirrorEligible (data x) && mirrorDraw w');
      destruct (truthyString (team_id (data x)));
      destruct (truthyId (crawl_id (data x))); simpl; auto;
      destruct (truthyNumber (jobDelay (data x)) || _); reflexivity.
Qed.

End TenantLookups.

(** X16.  A bulk submission handles its tenants in order of first
    occurrence in the input and looks the ceiling up once per tenant,
    whatever the number of jobs; every lookup, for whichever tenant, asks
    for the mode of the first job of the whole submission (extract when
    its [from_extract] is set, crawl otherwise). *)
Theorem bulk_one_lookup_per_tenant {W : Type} {BE : Backend W}
    (w : W) (first : BulkJob) (rest : list BulkJob) :
  let tenants :=
    firstOccurrences (map (fun job => team_id (data job)) (first :: rest)) in
  let m := if from_extract (data first) then ModeExtract else ModeCrawl in
  filter isCeilingLookup (callsOf (addScrapeJobs (first :: rest) w))
  = map (fun teamId => GetACUCTeam teamId m) tenants
  /\ NoDup tenants
  /\ (forall teamId, In teamId tenants
                     <-> exists job, In job (first :: rest)
                                     /\ team_id (data job) = teamId).
Proof.
  intros tenants m. split; [|split].
  - unfold addScrapeJobs.
    rewrite (forEach_filter isCeilingLookup _
               (fun bucket => [GetACUCTeam (fst bucket)
                                           (bulkMode (data first))]))
      by (intros bucket w'; apply addScrapeJobsTeam_lookup).
    rewrite groupBy_spec, flat_map_map. cbn [fst].
    apply flat_map_singleton.
  - apply firstOccurrences_NoDup.
  - intros teamId. subst tenants. rewrite firstOccurrences_In, in_map_iff.
    split; intros (job & H1 & H2); exists job; auto.
Qed.
